(** * ZenB breath engine: store, phase machine and engine loop

    A shallow embedding of the session store ([store.ts]), of the
    phase machine the engine imports, and of the engine hook
    ([hooks/useBreathEngine.ts]), with the properties the specification
    states about them.

    Numbers: wall-clock milliseconds returned by [Date.now()] and the
    counters of the store are integers ([Z]); the high-resolution
    timestamps of [performance.now()], the phase durations and the
    progress fraction are modelled as rationals ([Q]). *)

From Stdlib Require Import ZArith QArith Qminmax Bool List String Lia Lqa.
From Stdlib Require Import DecimalString.
Import ListNotations.
Local Open Scope Z_scope.

(* ===================================================================== *)
(** ** Types ([types.ts]) *)
(* ===================================================================== *)

Inductive BreathPhase := inhale | holdIn | exhale | holdOut.
Inductive CueType := cue_inhale | cue_exhale | cue_hold | cue_finish.
Inductive BreathingType := bt_4_7_8 | bt_box | bt_calm.
Inductive ColorTheme := warm | cool | neutral.
Inductive QualityTier := q_auto | q_low | q_medium | q_high.
Inductive Language := en | vi.
Inductive SoundPack :=
  musical | bells | breath | voice_en | voice_vi | voice_12.
Inductive HapticStrength := light | medium | heavy.

Record UserSettings := mkUserSettings {
  soundEnabled : bool;
  hapticEnabled : bool;
  hapticStrength : HapticStrength;
  theme : ColorTheme;
  quality : QualityTier;
  reduceMotion : bool;
  showTimer : bool;
  language : Language;
  soundPack : SoundPack;
  streak : Z;
  lastBreathDate : string
}.

Record SessionHistoryItem := mkItem {
  item_id : string;
  item_timestamp : Z;
  item_durationSec : Z;
  item_patternId : BreathingType;
  item_cycles : Z
}.

(** [timings: Record<BreathPhase, number>], in seconds. *)
Record Timings := mkTimings {
  t_inhale : Q;
  t_holdIn : Q;
  t_exhale : Q;
  t_holdOut : Q
}.

Definition timing (t : Timings) (p : BreathPhase) : Q :=
  match p with
  | inhale => t_inhale t
  | holdIn => t_holdIn t
  | exhale => t_exhale t
  | holdOut => t_holdOut t
  end.

Record BreathPattern := mkPattern {
  pat_id : BreathingType;
  label : string;
  tag : string;
  description : string;
  timings : Timings;
  colorTheme : ColorTheme;
  recommendedCycles : option Z
}.

Definition BREATHING_PATTERNS (type : BreathingType) : BreathPattern :=
  match type with
  | bt_4_7_8 =>
      mkPattern bt_4_7_8 "Relax" "Sleep & Anxiety"
        "A natural tranquilizer for the nervous system."
        (mkTimings 4 7 8 0) warm (Some 4)
  | bt_box =>
      mkPattern bt_box "Focus" "Concentration"
        "Used by Navy SEALs to heighten performance."
        (mkTimings 4 4 4 4) neutral (Some 6)
  | bt_calm =>
      mkPattern bt_calm "Balance" "Coherence"
        "Restores balance to your heart rate variability."
        (mkTimings 4 0 6 0) cool (Some 8)
  end.

(* ===================================================================== *)
(** ** Session store ([store.ts]) *)
(* ===================================================================== *)

Record SessionStats := mkStats {
  stats_durationSec : Z;
  cyclesCompleted : Z;
  patternLabel : string;
  stats_patternId : BreathingType
}.

Record BreathState := mkState {
  isActive : bool;
  isPaused : bool;
  currentPattern : BreathPattern;
  phase : BreathPhase;
  cycleCount : Z;
  sessionStartTime : Z;
  showSummary : bool;
  lastSessionStats : option SessionStats;
  hasSeenOnboarding : bool;
  userSettings : UserSettings;
  history : list SessionHistoryItem
}.

Definition initialSettings : UserSettings :=
  mkUserSettings true true medium neutral q_auto false true en musical 0 "".

Definition initialState : BreathState :=
  mkState false false (BREATHING_PATTERNS bt_4_7_8) inhale 0 0 false None
          false initialSettings [].

(** What [finishSession] reads from its environment: the three readings of
    [Date.now()] (duration, id, timestamp), the digits
    [Math.random().toString().slice(2, 6)], and the two local calendar
    dates of [getTodayString] and [getYesterdayString]. *)
Record FinishEnv := mkFinishEnv {
  dateNow : Z;
  idNow : Z;
  idRandom : string;
  stampNow : Z;
  today : string;
  yesterday : string
}.

Module Store.

(** [startSession(type)], over an arbitrary pattern table. *)
Definition startSessionIn (table : BreathingType -> BreathPattern)
    (type : BreathingType) (now : Z) (s : BreathState) : BreathState :=
  mkState true false (table type) inhale 0 now false
          (lastSessionStats s) (hasSeenOnboarding s) (userSettings s)
          (history s).

Definition startSession := startSessionIn BREATHING_PATTERNS.

Definition stopSession (s : BreathState) : BreathState :=
  mkState false false (currentPattern s) inhale 0 0 (showSummary s)
          (lastSessionStats s) (hasSeenOnboarding s) (userSettings s)
          (history s).

(** [Math.floor((Date.now() - state.sessionStartTime) / 1000)] *)
Definition durationSec (e : FinishEnv) (s : BreathState) : Z :=
  (dateNow e - sessionStartTime s) / 1000.

(** [n.toString()] of an integer. *)
Definition toString (n : Z) : string := NilZero.string_of_int (Z.to_int n).

Definition newItem (e : FinishEnv) (s : BreathState) : SessionHistoryItem :=
  mkItem (toString (idNow e) ++ idRandom e) (stampNow e) (durationSec e s)
         (pat_id (currentPattern s)) (cycleCount s).

Definition newHistory (e : FinishEnv) (s : BreathState)
  : list SessionHistoryItem :=
  if 10 <? durationSec e s
  then firstn 100 (newItem e s :: history s)
  else history s.

(** The streak block: the pair (newStreak, newLastDate). *)
Definition newStreakDate (e : FinishEnv) (s : BreathState) : Z * string :=
  let newStreak := streak (userSettings s) in
  let newLastDate := lastBreathDate (userSettings s) in
  if 30 <? durationSec e s then
    if String.eqb newLastDate (today e) then (newStreak, newLastDate)
    else if String.eqb newLastDate (yesterday e)
         then (newStreak + 1, today e)
         else (1, today e)
  else (newStreak, newLastDate).

Definition withStreak (u : UserSettings) (sd : Z * string) : UserSettings :=
  mkUserSettings (soundEnabled u) (hapticEnabled u) (hapticStrength u)
    (theme u) (quality u) (reduceMotion u) (showTimer u) (language u)
    (soundPack u) (fst sd) (snd sd).

Definition finishSession (e : FinishEnv) (s : BreathState) : BreathState :=
  mkState false false (currentPattern s) (phase s) (cycleCount s) 0 true
    (Some (mkStats (durationSec e s) (cycleCount s)
                   (label (currentPattern s)) (pat_id (currentPattern s))))
    (hasSeenOnboarding s)
    (withStreak (userSettings s) (newStreakDate e s))
    (newHistory e s).

Definition togglePause (s : BreathState) : BreathState :=
  mkState (isActive s) (negb (isPaused s)) (currentPattern s) (phase s)
    (cycleCount s) (sessionStartTime s) (showSummary s) (lastSessionStats s)
    (hasSeenOnboarding s) (userSettings s) (history s).

Definition setPhase (p : BreathPhase) (s : BreathState) : BreathState :=
  mkState (isActive s) (isPaused s) (currentPattern s) p
    (cycleCount s) (sessionStartTime s) (showSummary s) (lastSessionStats s)
    (hasSeenOnboarding s) (userSettings s) (history s).

Definition incrementCycle (s : BreathState) : BreathState :=
  mkState (isActive s) (isPaused s) (currentPattern s) (phase s)
    (cycleCount s + 1) (sessionStartTime s) (showSummary s)
    (lastSessionStats s) (hasSeenOnboarding s) (userSettings s) (history s).

Definition completeOnboarding (s : BreathState) : BreathState :=
  mkState (isActive s) (isPaused s) (currentPattern s) (phase s)
    (cycleCount s) (sessionStartTime s) (showSummary s) (lastSessionStats s)
    true (userSettings s) (history s).

Definition closeSummary (s : BreathState) : BreathState :=
  mkState (isActive s) (isPaused s) (currentPattern s) (phase s)
    (cycleCount s) (sessionStartTime s) false (lastSessionStats s)
    (hasSeenOnboarding s) (userSettings s) (history s).

Definition clearHistory (s : BreathState) : BreathState :=
  mkState (isActive s) (isPaused s) (currentPattern s) (phase s)
    (cycleCount s) (sessionStartTime s) (showSummary s) (lastSessionStats s)
    (hasSeenOnboarding s) (userSettings s) [].

(** The settings actions all have the shape
    [set((s) => ({ userSettings: { ...s.userSettings, field } }))]. *)
Definition setSettings (f : UserSettings -> UserSettings) (s : BreathState)
  : BreathState :=
  mkState (isActive s) (isPaused s) (currentPattern s) (phase s)
    (cycleCount s) (sessionStartTime s) (showSummary s) (lastSessionStats s)
    (hasSeenOnboarding s) (f (userSettings s)) (history s).

Definition toggleSound := setSettings (fun u =>
  mkUserSettings (negb (soundEnabled u)) (hapticEnabled u) (hapticStrength u)
    (theme u) (quality u) (reduceMotion u) (showTimer u) (language u)
    (soundPack u) (streak u) (lastBreathDate u)).

Definition toggleHaptic := setSettings (fun u =>
  mkUserSettings (soundEnabled u) (negb (hapticEnabled u)) (hapticStrength u)
    (theme u) (quality u) (reduceMotion u) (showTimer u) (language u)
    (soundPack u) (streak u) (lastBreathDate u)).

Definition setHapticStrength (h : HapticStrength) := setSettings (fun u =>
  mkUserSettings (soundEnabled u) (hapticEnabled u) h
    (theme u) (quality u) (reduceMotion u) (showTimer u) (language u)
    (soundPack u) (streak u) (lastBreathDate u)).

Definition setTheme (t : ColorTheme) := setSettings (fun u =>
  mkUserSettings (soundEnabled u) (hapticEnabled u) (hapticStrength u)
    t (quality u) (reduceMotion u) (showTimer u) (language u)
    (soundPack u) (streak u) (lastBreathDate u)).

Definition setQuality (q : QualityTier) := setSettings (fun u =>
  mkUserSettings (soundEnabled u) (hapticEnabled u) (hapticStrength u)
    (theme u) q (reduceMotion u) (showTimer u) (language u)
    (soundPack u) (streak u) (lastBreathDate u)).

Definition setReduceMotion (v : bool) := setSettings (fun u =>
  mkUserSettings (soundEnabled u) (hapticEnabled u) (hapticStrength u)
    (theme u) (quality u) v (showTimer u) (language u)
    (soundPack u) (streak u) (lastBreathDate u)).

Definition toggleTimer := setSettings (fun u =>
  mkUserSettings (soundEnabled u) (hapticEnabled u) (hapticStrength u)
    (theme u) (quality u) (reduceMotion u) (negb (showTimer u)) (language u)
    (soundPack u) (streak u) (lastBreathDate u)).

Definition setLanguage (l : Language) := setSettings (fun u =>
  mkUserSettings (soundEnabled u) (hapticEnabled u) (hapticStrength u)
    (theme u) (quality u) (reduceMotion u) (showTimer u) l
    (soundPack u) (streak u) (lastBreathDate u)).

Definition setSoundPack (p : SoundPack) := setSettings (fun u =>
  mkUserSettings (soundEnabled u) (hapticEnabled u) (hapticStrength u)
    (theme u) (quality u) (reduceMotion u) (showTimer u) (language u)
    p (streak u) (lastBreathDate u)).

(** The actions of the store as data, and their dispatch. *)
Inductive Action :=
| AStartSession (type : BreathingType) (now : Z)
| AStopSession
| AFinishSession (e : FinishEnv)
| ATogglePause
| ASetPhase (p : BreathPhase)
| AIncrementCycle
| ACompleteOnboarding
| ACloseSummary
| AClearHistory
| AToggleSound
| AToggleHaptic
| ASetHapticStrength (h : HapticStrength)
| ASetTheme (t : ColorTheme)
| ASetQuality (q : QualityTier)
| ASetReduceMotion (v : bool)
| AToggleTimer
| ASetLanguage (l : Language)
| ASetSoundPack (p : SoundPack).

Definition dispatch (a : Action) (s : BreathState) : BreathState :=
  match a with
  | AStartSession type now => startSession type now s
  | AStopSession => stopSession s
  | AFinishSession e => finishSession e s
  | ATogglePause => togglePause s
  | ASetPhase p => setPhase p s
  | AIncrementCycle => incrementCycle s
  | ACompleteOnboarding => completeOnboarding s
  | ACloseSummary => closeSummary s
  | AClearHistory => clearHistory s
  | AToggleSound => toggleSound s
  | AToggleHaptic => toggleHaptic s
  | ASetHapticStrength h => setHapticStrength h s
  | ASetTheme t => setTheme t s
  | ASetQuality q => setQuality q s
  | ASetReduceMotion v => setReduceMotion v s
  | AToggleTimer => toggleTimer s
  | ASetLanguage l => setLanguage l s
  | ASetSoundPack p => setSoundPack p s
  end.

Definition run (acts : list Action) (s : BreathState) : BreathState :=
  fold_left (fun st a => dispatch a st) acts s.

End Store.

(* ===================================================================== *)
(** ** Phase machine ([services/phaseMachine.ts]) *)
(* ===================================================================== *)

Local Open Scope Q_scope.

(** [d > 0] on a duration. *)
Definition positive (d : Q) : bool := negb (Qle_bool d 0).

(** The cyclic order inhale -> holdIn -> exhale -> holdOut -> inhale. *)
Definition cyclicNext (p : BreathPhase) : BreathPhase :=
  match p with
  | inhale => holdIn
  | holdIn => exhale
  | exhale => holdOut
  | holdOut => inhale
  end.

Inductive EngineError := InvalidPattern.

(** Modelled from the spec: [isPatternValid] of services/phaseMachine.ts,
    which the engine imports and which is not among the sources: true iff
    at least one phase duration is > 0. *)
Definition isPatternValid (pattern : BreathPattern) : bool :=
  positive (timing (timings pattern) inhale)
  || positive (timing (timings pattern) holdIn)
  || positive (timing (timings pattern) exhale)
  || positive (timing (timings pattern) holdOut).

(** Modelled from the spec: [isCycleBoundary] of services/phaseMachine.ts:
    true iff the phase is inhale. *)
Definition isCycleBoundary (p : BreathPhase) : bool :=
  match p with inhale => true | _ => false end.

(** The forward search through the cycle: at most [fuel] candidates after
    [p] are examined. *)
Fixpoint searchForward (fuel : nat) (p : BreathPhase) (pattern : BreathPattern)
  : option BreathPhase :=
  match fuel with
  | O => None
  | S fuel' =>
      let q := cyclicNext p in
      if positive (timing (timings pattern) q) then Some q
      else searchForward fuel' q pattern
  end.

(** Modelled from the spec: [nextPhaseSkipZero] of services/phaseMachine.ts:
    the next phase in cyclic order whose configured duration is > 0, zero
    durations skipped; the four candidates after [current] end with
    [current] itself; it signals "invalid pattern" when no phase has a
    positive duration. *)
Definition nextPhaseSkipZero (current : BreathPhase) (pattern : BreathPattern)
  : EngineError + BreathPhase :=
  match searchForward 4 current pattern with
  | Some q => inr q
  | None => inl InvalidPattern
  end.

(* ===================================================================== *)
(** ** Engine ([hooks/useBreathEngine.ts]) *)
(* ===================================================================== *)

Definition phaseToCueType (p : BreathPhase) : CueType :=
  match p with
  | holdIn | holdOut => cue_hold
  | inhale => cue_inhale
  | exhale => cue_exhale
  end.

(** The values a render of the hook captures in its closures. *)
Record Render := mkRender {
  r_isActive : bool;
  r_isPaused : bool;
  r_phase : BreathPhase;
  r_currentPattern : BreathPattern
}.

Definition renderOf (s : BreathState) : Render :=
  mkRender (isActive s) (isPaused s) (phase s) (currentPattern s).

Record EngineRefs := mkRefs {
  settingsRef : UserSettings;
  startTimeRef : Q;
  pausedAtRef : Q;
  rafIdRef : option nat;
  wasHiddenRef : bool;
  progressRef : Q
}.

(** What the engine does to the outside, in program order: the two store
    actions it calls, the two cue services, and the frame scheduler. *)
Inductive Event :=
| EvIncrementCycle
| EvSetPhase (p : BreathPhase)
| EvHaptic (enabled : bool) (strength : HapticStrength) (cue : CueType)
| EvPlayCue (cue : CueType) (enabled : bool) (pack : SoundPack)
            (duration : Q) (lang : Language)
| EvRequestFrame (id : nat)
| EvCancelFrame (id : nat).

(** The store, the refs of the hook, the animation frames that are
    requested and not yet fired or cancelled (each with the render its
    [loop] closure captured), and the events so far, oldest first. *)
Record World := mkWorld {
  store : BreathState;
  refs : EngineRefs;
  pending : list (nat * Render);
  nextFrameId : nat;
  events : list Event
}.

Inductive Outcome (A : Type) :=
| Done (a : A) (w : World)
| Thrown (e : EngineError).
Arguments Done {A} a w.
Arguments Thrown {A} e.

Definition M (A : Type) := World -> Outcome A.

Definition ret {A} (a : A) : M A := fun w => Done a w.

Definition bind {A B} (m : M A) (k : A -> M B) : M B :=
  fun w => match m w with
           | Done a w' => k a w'
           | Thrown e => Thrown e
           end.

Declare Scope engine_scope.
Delimit Scope engine_scope with engine.
Notation "x <- m ;; k" := (bind m (fun x => k))
  (at level 61, m at next level, right associativity) : engine_scope.
Notation "m ;; k" := (bind m (fun _ => k))
  (at level 61, right associativity) : engine_scope.
Local Open Scope engine_scope.

Definition throwOrRet {A} (r : EngineError + A) : M A :=
  match r with
  | inl e => fun _ => Thrown e
  | inr a => ret a
  end.

Definition getRefs : M EngineRefs := fun w => Done (refs w) w.

Definition modifyRefs (f : EngineRefs -> EngineRefs) : M unit :=
  fun w => Done tt (mkWorld (store w) (f (refs w)) (pending w)
                            (nextFrameId w) (events w)).

Definition emit (e : Event) : M unit :=
  fun w => Done tt (mkWorld (store w) (refs w) (pending w)
                            (nextFrameId w) (events w ++ [e])).

Definition modifyStore (f : BreathState -> BreathState) : M unit :=
  fun w => Done tt (mkWorld (f (store w)) (refs w) (pending w)
                            (nextFrameId w) (events w)).

Definition setStartTime (t : Q) : M unit := modifyRefs (fun r =>
  mkRefs (settingsRef r) t (pausedAtRef r) (rafIdRef r) (wasHiddenRef r)
         (progressRef r)).

Definition setPausedAt (t : Q) : M unit := modifyRefs (fun r =>
  mkRefs (settingsRef r) (startTimeRef r) t (rafIdRef r) (wasHiddenRef r)
         (progressRef r)).

Definition setRafId (i : option nat) : M unit := modifyRefs (fun r =>
  mkRefs (settingsRef r) (startTimeRef r) (pausedAtRef r) i (wasHiddenRef r)
         (progressRef r)).

Definition setWasHidden (b : bool) : M unit := modifyRefs (fun r =>
  mkRefs (settingsRef r) (startTimeRef r) (pausedAtRef r) (rafIdRef r) b
         (progressRef r)).

Definition setProgress (p : Q) : M unit := modifyRefs (fun r =>
  mkRefs (settingsRef r) (startTimeRef r) (pausedAtRef r) (rafIdRef r)
         (wasHiddenRef r) p).

Definition setSettingsRef (u : UserSettings) : M unit := modifyRefs (fun r =>
  mkRefs u (startTimeRef r) (pausedAtRef r) (rafIdRef r)
         (wasHiddenRef r) (progressRef r)).

(** [requestAnimationFrame(loop)], [loop] being the closure of render [r]. *)
Definition requestAnimationFrame (r : Render) : M nat :=
  fun w =>
    let id := nextFrameId w in
    Done id (mkWorld (store w) (refs w) (pending w ++ [(id, r)])
                     (S id) (events w ++ [EvRequestFrame id])).

Definition cancelAnimationFrame (id : nat) : M unit :=
  fun w =>
    Done tt (mkWorld (store w) (refs w)
               (filter (fun f => negb (Nat.eqb (fst f) id)) (pending w))
               (nextFrameId w) (events w ++ [EvCancelFrame id])).

Definition stopRaf : M unit :=
  r <- getRefs ;;
  match rafIdRef r with
  | Some id => cancelAnimationFrame id ;; setRafId None
  | None => ret tt
  end.

Definition incrementCycle : M unit :=
  modifyStore Store.incrementCycle ;; emit EvIncrementCycle.

Definition setPhase (p : BreathPhase) : M unit :=
  modifyStore (Store.setPhase p) ;; emit (EvSetPhase p).

Definition triggerCuesForPhase (p : BreathPhase) (duration : Q) : M unit :=
  r <- getRefs ;;
  let st := settingsRef r in
  let cueType := phaseToCueType p in
  emit (EvHaptic (hapticEnabled st) (hapticStrength st) cueType) ;;
  emit (EvPlayCue cueType (soundEnabled st) (soundPack st) duration
                  (language st)).

Definition epsilon : Q := 1 # 1000000.

(** [Math.max(0, Math.min(elapsedSec / denom, 1))] *)
Definition progressOf (elapsedSec duration : Q) : Q :=
  Qmax 0 (Qmin (elapsedSec / Qmax duration epsilon) 1).

Definition elapsedSecAt (now startTime : Q) : Q := (now - startTime) / 1000.

(** [loop(now)], the closure of render [r]; [perfNow] is what
    [performance.now()] returns if the phase transition reads it. *)
Definition loop (r : Render) (now perfNow : Q) : M unit :=
  let phase := r_phase r in
  let currentPattern := r_currentPattern r in
  let duration := timing (timings currentPattern) phase in
  if negb (isPatternValid currentPattern) then
    setProgress 0 ;; stopRaf
  else
    rf <- getRefs ;;
    let elapsedSec := elapsedSecAt now (startTimeRef rf) in
    setProgress (progressOf elapsedSec duration) ;;
    if Qle_bool duration elapsedSec then
      next <- throwOrRet (nextPhaseSkipZero phase currentPattern) ;;
      let nextDuration := timing (timings currentPattern) next in
      (if isCycleBoundary next then incrementCycle else ret tt) ;;
      setPhase next ;;
      setStartTime perfNow ;;
      setProgress 0 ;;
      triggerCuesForPhase next nextDuration ;;
      id <- requestAnimationFrame r ;;
      setRafId (Some id)
    else
      id <- requestAnimationFrame r ;;
      setRafId (Some id).

(** The [visibilitychange] listener registered by render [r]. *)
Definition onVis (r : Render) (hidden : bool) (perfNow : Q) : M unit :=
  if hidden then
    setWasHidden true ;; setPausedAt perfNow ;; stopRaf
  else
    rf <- getRefs ;;
    if wasHiddenRef rf && r_isActive r && negb (r_isPaused r) then
      setWasHidden false ;;
      setStartTime perfNow ;;
      setProgress 0 ;;
      id <- requestAnimationFrame r ;;
      setRafId (Some id)
    else ret tt.

(** The body of the main effect, run by render [r]. *)
Definition mainEffect (r : Render) (perfNow : Q) : M unit :=
  if negb (r_isActive r) then
    stopRaf ;; setProgress 0 ;; setStartTime 0 ;; setPausedAt 0
  else if r_isPaused r then
    setPausedAt perfNow ;; stopRaf
  else
    rf <- getRefs ;;
    (if positive (pausedAtRef rf) && positive (startTimeRef rf) then
       let pausedDur := perfNow - pausedAtRef rf in
       setStartTime (startTimeRef rf + pausedDur) ;;
       setPausedAt 0
     else
       setStartTime perfNow ;;
       setProgress 0 ;;
       triggerCuesForPhase (r_phase r)
         (timing (timings (r_currentPattern r)) (r_phase r))) ;;
    id <- requestAnimationFrame r ;;
    setRafId (Some id).

(** The cleanup the main effect returns when it reached its last line. *)
Definition mainEffectCleanup : M unit := stopRaf.

(** The effect that keeps [settingsRef] fresh. *)
Definition settingsEffect (u : UserSettings) : M unit := setSettingsRef u.

Definition initialRefs (u : UserSettings) : EngineRefs :=
  mkRefs u 0 0 None false 0.

Definition initialWorld (s : BreathState) : World :=
  mkWorld s (initialRefs (userSettings s)) [] O [].

(** The browser fires the animation frame [id]: a frame that is still
    pending leaves the queue and its [loop] closure runs; a frame that was
    cancelled does not fire. *)
Definition fireFrame (id : nat) (now perfNow : Q) : M unit :=
  fun w =>
    match find (fun f => Nat.eqb (fst f) id) (pending w) with
    | Some (_, r) =>
        loop r now perfNow
          (mkWorld (store w) (refs w)
             (filter (fun f => negb (Nat.eqb (fst f) id)) (pending w))
             (nextFrameId w) (events w))
    | None => Done tt w
    end.

(** What can happen to the hook while a session lasts: a frame fires, the
    main effect is cleaned up or runs for a render, the visibility
    listener of a render is called, the settings effect runs, the user
    toggles pause. *)
Inductive EngineStep :=
| StepFrame (id : nat) (now perfNow : Q)
| StepLoop (r : Render) (now perfNow : Q)
| StepCleanup
| StepEffect (r : Render) (perfNow : Q)
| StepVis (r : Render) (hidden : bool) (perfNow : Q)
| StepSettings
| StepTogglePause.

Definition step (st : EngineStep) : M unit :=
  match st with
  | StepFrame id now perfNow => fireFrame id now perfNow
  | StepLoop r now perfNow => loop r now perfNow
  | StepCleanup => mainEffectCleanup
  | StepEffect r perfNow => mainEffect r perfNow
  | StepVis r hidden perfNow => onVis r hidden perfNow
  | StepSettings => fun w => settingsEffect (userSettings (store w)) w
  | StepTogglePause => modifyStore Store.togglePause
  end.

Fixpoint runSteps (sts : list EngineStep) : M unit :=
  match sts with
  | [] => ret tt
  | st :: rest => step st ;; runSteps rest
  end.

(** The world when [startSession] has just been called: the refs and the
    frame queue are whatever earlier sessions left, the event log starts
    empty. *)
Definition sessionStart (type : BreathingType) (now : Z) (s : BreathState)
    (rf : EngineRefs) (pend : list (nat * Render)) (nid : nat) : World :=
  mkWorld (Store.startSession type now s) rf pend nid [].

(** *** Reading the event log *)

Definition isIncrement (e : Event) : bool :=
  match e with EvIncrementCycle => true | _ => false end.

Definition isSetPhase (e : Event) : bool :=
  match e with EvSetPhase _ => true | _ => false end.

Definition isEnterInhale (e : Event) : bool :=
  match e with EvSetPhase inhale => true | _ => false end.

Definition isPlayCue (e : Event) : bool :=
  match e with EvPlayCue _ _ _ _ _ => true | _ => false end.

Definition countEv (P : Event -> bool) (l : list Event) : nat :=
  List.length (filter P l).

(** Position of the first event satisfying [P]. *)
Fixpoint indexWhere (P : Event -> bool) (l : list Event) : option nat :=
  match l with
  | [] => None
  | e :: rest =>
      if P e then Some O
      else match indexWhere P rest with
           | Some n => Some (S n)
           | None => None
           end
  end.

(** The events a handler added to the log of [w]. *)
Definition eventsSince (w w' : World) : list Event :=
  skipn (List.length (events w)) (events w').

(** The phase boundary test of [loop]: the pattern is valid and
    [elapsedSec >= duration]. *)
Definition crosses (r : Render) (now : Q) (w : World) : bool :=
  isPatternValid (r_currentPattern r)
  && Qle_bool (timing (timings (r_currentPattern r)) (r_phase r))
              (elapsedSecAt now (startTimeRef (refs w))).

(** The cue a phase gets under the settings currently in [settingsRef]. *)
Definition cueEvents (st : UserSettings) (p : BreathPhase) (duration : Q)
  : list Event :=
  [EvHaptic (hapticEnabled st) (hapticStrength st) (phaseToCueType p);
   EvPlayCue (phaseToCueType p) (soundEnabled st) (soundPack st) duration
             (language st)].

(** The phases strictly between [p] and its [n]-th successor. *)
Fixpoint skipped (n : nat) (p : BreathPhase) : list BreathPhase :=
  match n with
  | O => []
  | S n' => cyclicNext p :: skipped n' (cyclicNext p)
  end.

Fixpoint iterNext (n : nat) (p : BreathPhase) : BreathPhase :=
  match n with
  | O => p
  | S n' => iterNext n' (cyclicNext p)
  end.


(* ===================================================================== *)
(** ** The worlds the handlers leave *)
(* ===================================================================== *)

Local Open Scope Q_scope.

Ltac run_engine :=
  unfold loop, onVis, mainEffect, mainEffectCleanup, stopRaf,
    triggerCuesForPhase, incrementCycle, setPhase, requestAnimationFrame,
    cancelAnimationFrame, setStartTime, setPausedAt, setRafId, setWasHidden,
    setProgress, setSettingsRef, modifyRefs, modifyStore, emit, getRefs,
    throwOrRet, bind, ret;
  cbn [store refs pending nextFrameId events settingsRef startTimeRef
       pausedAtRef rafIdRef wasHiddenRef progressRef negb].

(** The world [stopRaf] leaves. *)
Definition stopped (w : World) : World :=
  match rafIdRef (refs w) with
  | Some id =>
      mkWorld (store w)
        (mkRefs (settingsRef (refs w)) (startTimeRef (refs w))
                (pausedAtRef (refs w)) None (wasHiddenRef (refs w))
                (progressRef (refs w)))
        (filter (fun f => negb (Nat.eqb (fst f) id)) (pending w))
        (nextFrameId w) (events w ++ [EvCancelFrame id])
  | None => w
  end.


(** The world a request of the next frame for render [r] leaves. *)
Definition scheduled (r : Render) (w : World) : World :=
  mkWorld (store w)
    (mkRefs (settingsRef (refs w)) (startTimeRef (refs w))
            (pausedAtRef (refs w)) (Some (nextFrameId w))
            (wasHiddenRef (refs w)) (progressRef (refs w)))
    (pending w ++ [(nextFrameId w, r)])
    (S (nextFrameId w)) (events w ++ [EvRequestFrame (nextFrameId w)]).

Definition withProgress (p : Q) (w : World) : World :=
  mkWorld (store w)
    (mkRefs (settingsRef (refs w)) (startTimeRef (refs w))
            (pausedAtRef (refs w)) (rafIdRef (refs w))
            (wasHiddenRef (refs w)) p)
    (pending w) (nextFrameId w) (events w).

(** The world after the store writes, the clock reset and the cue of a
    transition to [next], before the next frame is requested. *)
Definition transitioned (r : Render) (next : BreathPhase) (perfNow : Q)
    (w : World) : World :=
  mkWorld
    (Store.setPhase next
       (if isCycleBoundary next then Store.incrementCycle (store w)
        else store w))
    (mkRefs (settingsRef (refs w)) perfNow (pausedAtRef (refs w))
            (rafIdRef (refs w)) (wasHiddenRef (refs w)) 0)
    (pending w) (nextFrameId w)
    (events w
     ++ (if isCycleBoundary next then [EvIncrementCycle] else [])
     ++ [EvSetPhase next]
     ++ cueEvents (settingsRef (refs w)) next
          (timing (timings (r_currentPattern r)) next)).


(** The cycle count of the store is the number of calls of [setPhase]
    with inhale in the log, and each of them has its one increment. *)
Definition cyclesCounted (w : World) : Prop :=
  cycleCount (store w) = Z.of_nat (countEv isEnterInhale (events w))
  /\ countEv isIncrement (events w) = countEv isEnterInhale (events w).

(** What one tick adds to the cycle count. *)
Definition wraps (r : Render) (now : Q) (w : World) : Z :=
  if crosses r now w then
    match nextPhaseSkipZero (r_phase r) (r_currentPattern r) with
    | inr inhale => 1%Z
    | _ => 0%Z
    end
  else 0%Z.

(** The order "phase change, cycle increment, cue" on the events of one
    tick: where the tick increments the cycle count, a phase change comes
    before the increment and a sound cue after it. *)
Definition phaseThenIncrementThenCue (evs : list Event) : Prop :=
  forall i, indexWhere isIncrement evs = Some i ->
  exists j k,
    indexWhere isSetPhase evs = Some j
    /\ indexWhere isPlayCue evs = Some k
    /\ (j < i)%nat /\ (i < k)%nat.

(** The world a handler leaves, or [w] itself should it throw. *)
Definition after (m : M unit) (w : World) : World :=
  match m w with
  | Done _ w' => w'
  | Thrown _ => w
  end.

(* ===================================================================== *)
(** ** Sample inputs *)
(* ===================================================================== *)

Module Sample.

Local Open Scope Z_scope.

Definition day0 : string := "2026-10-30".
Definition day1 : string := "2026-10-31".
Definition day2 : string := "2026-11-01".

(** A millisecond of 31 October 2026 and one of 1 November 2026. *)
Definition t1 : Z := 1793440800000.
Definition t2 : Z := 1793527200000.

(** The environment of a [finishSession] at [now] on the day [td], the
    day after [yd]. *)
Definition envAt (now : Z) (td yd : string) : FinishEnv :=
  mkFinishEnv now now "4821" now td yd.

(** A session of [secs] seconds started at [t0] from [s] and finished on
    the day [td]. *)
Definition session (t0 secs : Z) (td yd : string) (s : BreathState)
  : BreathState :=
  Store.finishSession (envAt (t0 + secs * 1000) td yd)
    (Store.startSession bt_box t0 s).

Definition oldItem (n : Z) : SessionHistoryItem :=
  mkItem (Store.toString n) n 60 bt_calm 3.

(** A history of [n] entries, the most recent first: ids n, ..., 1. *)
Fixpoint oldHistory (n : nat) : list SessionHistoryItem :=
  match n with
  | O => []
  | S n' => oldItem (Z.of_nat n) :: oldHistory n'
  end.

Definition withHistory (h : list SessionHistoryItem) (s : BreathState)
  : BreathState :=
  mkState (isActive s) (isPaused s) (currentPattern s) (phase s)
    (cycleCount s) (sessionStartTime s) (showSummary s) (lastSessionStats s)
    (hasSeenOnboarding s) (userSettings s) h.

Definition withStreakDate (n : Z) (d : string) (s : BreathState)
  : BreathState :=
  Store.setSettings (fun u => Store.withStreak u (n, d)) s.

Local Open Scope Q_scope.

Definition pattern (a b c d : Q) : BreathPattern :=
  mkPattern bt_box "Custom" "" "" (mkTimings a b c d) neutral None.

Definition render (p : BreathPhase) (pat : BreathPattern) : Render :=
  mkRender true false p pat.

(** A running box session whose current phase started at 5000 ms. *)
Definition running (p : BreathPhase) (cycles : Z) : World :=
  mkWorld
    (mkState true false (BREATHING_PATTERNS bt_box) p cycles t1 false None
             true initialSettings [])
    (mkRefs initialSettings 5000 0 (Some 7%nat) false (1 # 2))
    [] 8%nat [].

End Sample.

(* ===================================================================== *)
(** ** The persisted slice and what the app derives from the store *)
(* ===================================================================== *)

Local Open Scope Z_scope.

(** [partialize] of the persist middleware: what is written to storage. *)
Record Persisted := mkPersisted {
  p_userSettings : UserSettings;
  p_hasSeenOnboarding : bool;
  p_history : list SessionHistoryItem
}.

Definition partialize (state : BreathState) : Persisted :=
  mkPersisted (userSettings state) (hasSeenOnboarding state) (history state).

(** [historyStats] of the app:
    [history.reduce((acc, curr) => acc + curr.durationSec, 0)] and
    [Math.floor(totalSecs / 60)]. *)
Definition totalSessions (h : list SessionHistoryItem) : Z :=
  Z.of_nat (List.length h).

Definition totalSecs (h : list SessionHistoryItem) : Z :=
  fold_left (fun acc curr => acc + item_durationSec curr) h 0.

Definition totalMins (h : list SessionHistoryItem) : Z := totalSecs h / 60.

(** [s.padStart(targetLength, pad)]: [k] characters taken from [pad]
    over and over. *)
Fixpoint padding (k : nat) (cur pad : string) : string :=
  match k with
  | O => EmptyString
  | S k' =>
      match cur with
      | String c rest => String c (padding k' rest pad)
      | EmptyString =>
          match pad with
          | String c rest => String c (padding k' rest pad)
          | EmptyString => EmptyString
          end
      end
  end.

Definition padStart (targetLength : nat) (pad s : string) : string :=
  if (String.length s <? targetLength)%nat
  then (padding (targetLength - String.length s) pad pad ++ s)%string
  else s.

(** The two numbers a duration is shown as, in the summary and in the
    history list: [Math.floor(durationSec / 60)] and [durationSec % 60],
    the remainder having the sign of the duration. *)
Definition shownMinutes (durationSec : Z) : Z := durationSec / 60.

Definition shownSeconds (durationSec : Z) : Z := Z.rem durationSec 60.

(** The summary's [(stats.durationSec % 60).toString().padStart(2, '0')]. *)
Definition summarySeconds (durationSec : Z) : string :=
  padStart 2 "0" (Store.toString (shownSeconds durationSec)).

(** Either nothing was ever credited, or the streak is at least 1. *)
Definition streakSound (u : UserSettings) : Prop :=
  (streak u = 0 /\ lastBreathDate u = ""%string) \/ 1 <= streak u.

(** Every item is of a session of more than 10 seconds. *)
Definition longEnough (h : list SessionHistoryItem) : Prop :=
  Forall (fun it => 10 < item_durationSec it) h.

Local Open Scope Q_scope.

(** The app's own frame loop reads [progressRef] and sets the ring's
    [strokeDashoffset] and the scale of the text. *)
Definition ringOffset (CIRCUMFERENCE p : Q) : Q :=
  CIRCUMFERENCE - p * CIRCUMFERENCE.

Definition textScale (phase : BreathPhase) (p : Q) : Q :=
  match phase with
  | inhale => 1 + p * (1 # 10)
  | exhale => (11 # 10) - p * (1 # 10)
  | holdIn => 11 # 10
  | holdOut => 1
  end.

(** *** More readings of the engine's world *)

Definition isHaptic (e : Event) : bool :=
  match e with EvHaptic _ _ _ => true | _ => false end.

Definition cueOf (e : Event) : option CueType :=
  match e with
  | EvHaptic _ _ c => Some c
  | EvPlayCue c _ _ _ _ => Some c
  | _ => None
  end.

(** Every sound has its haptic call, and no cue is the finish cue. *)
Definition wellCued (evs : list Event) : Prop :=
  countEv isHaptic evs = countEv isPlayCue evs
  /\ Forall (fun e => cueOf e <> Some cue_finish) evs.

Definition progressInRange (w : World) : Prop :=
  0 <= progressRef (refs w) <= 1.

(** The fields of the store the hook has no action for. *)
Definition sameSession (s s' : BreathState) : Prop :=
  isActive s' = isActive s
  /\ currentPattern s' = currentPattern s
  /\ sessionStartTime s' = sessionStartTime s
  /\ showSummary s' = showSummary s
  /\ lastSessionStats s' = lastSessionStats s
  /\ partialize s' = partialize s.

(** What every handler keeps. *)
Definition handled (w w' : World) : Prop :=
  (exists new, events w' = events w ++ new /\ wellCued new)
  /\ (progressInRange w -> progressInRange w')
  /\ sameSession (store w) (store w')
  /\ (cycleCount (store w) <= cycleCount (store w'))%Z.

Definition framePending (id : nat) (w : World) : bool :=
  existsb (fun f => Nat.eqb (fst f) id) (pending w).

(* ===================================================================== *)
(** ** Sound cues ([services/audio.ts]) *)
(* ===================================================================== *)

Module Audio.

Local Open Scope Q_scope.

(** The module-level state: which nodes of the audio graph exist (are not
    [null]), whether [Tone.context.state] is ['running']. *)
Record Graph := mkGraph {
  isUnlocked : bool;
  contextRunning : bool;
  masterGain : bool;
  masterReverb : bool;
  stereoWidener : bool;
  padSynth : bool;
  padChorus : bool;
  bellFundamental : bool;
  bellHarmonic : bool;
  bellVibrato : bool;
  breathInSynth : bool;
  breathOutSynth : bool;
  breathFilter : bool
}.

(** The graph the module starts with. *)
Definition emptyGraph : Graph :=
  mkGraph false false false false false false false false false false false
          false false.

Record Voice := mkVoice {
  v_lang : string;
  v_name : string
}.

Record Utterance := mkUtterance {
  u_text : string;
  u_lang : string;
  u_rate : Q;
  u_pitch : Q;
  u_volume : Q;
  u_voice : option Voice
}.

(** [t.phases] of a translation. *)
Record PhaseTexts := mkPhaseTexts {
  ph_inhale : string;
  ph_exhale : string;
  ph_hold : string
}.

(** What the module asks of Tone, of the speech synthesis and of the
    console. *)
Inductive Call :=
| ContextResume
| SetupInstruments
| PadTrigger (notes : list string) (duration time : Q)
| BellFundamentalNotes (notes : list string) (duration time : Q)
| BellFundamentalFreq (freq duration time : Q)
| BellHarmonicFreq (freq duration time : Q)
| VibratoRampTo (value rampTime time : Q)
| FilterCancelScheduled (time : Q)
| FilterSetValue (value time : Q)
| FilterRampTo (value rampTime time : Q)
| BreathInTrigger (duration time : Q)
| BreathOutTrigger (duration time : Q)
| SpeechCancel
| SpeechSpeak (u : Utterance)
| ConsoleWarn.

Definition CHORDS_warm : list string :=
  ["C3"; "G3"; "B3"; "E4"]%string.
Definition CHORDS_neutral : list string :=
  ["D3"; "A3"; "C4"; "F4"]%string.

(** [s.includes(sub)] *)
Fixpoint includes (sub s : string) : bool :=
  String.prefix sub s
  || match s with
     | String _ rest => includes sub rest
     | EmptyString => false
     end.

(** A call on a node that may be [null]: [node?.method(...)] and
    [if (node) node.method(...)]. *)
Definition onNode (present : bool) (c : Call) : list Call :=
  if present then [c] else [].

Section PlayCue.

(** [translations.ts] is not among the sources: the texts of a language
    are taken as given, as are [String.prototype.toLowerCase], the voices
    the browser lists, whether [window.speechSynthesis] exists, and which
    calls throw. *)
Variable TRANSLATIONS : Language -> PhaseTexts.
Variable toLowerCase : string -> string.
Variable speechSynthesis : bool.
Variable voices : list Voice.
Variable throws : Call -> bool.

Definition isPreferred (lang : Language) (v : Voice) : bool :=
  includes (match lang with vi => "vi" | en => "en" end)%string (v_lang v)
  && (includes "Google" (v_name v)
      || includes "Premium" (v_name v)
      || includes "Enhanced" (v_name v)).

(** [speak(text, lang)]: the calls it makes. *)
Definition speak (text : string) (lang : Language) : list Call :=
  if negb speechSynthesis then []
  else
    [SpeechCancel;
     SpeechSpeak
       (mkUtterance text
          (match lang with vi => "vi-VN" | en => "en-US" end)%string
          (8 # 10)
          (match lang with vi => 9 # 10 | en => 1 end)
          (7 # 10)
          (find (isPreferred lang) voices))].

(** The body of the [try] block: the calls in program order. *)
Definition cueCalls (g : Graph) (cue : CueType) (pack : SoundPack)
    (duration time : Q) (lang : Language) : list Call :=
  let t := TRANSLATIONS lang in
  match pack with
  | musical =>
      match cue with
      | cue_inhale =>
          onNode (padSynth g) (PadTrigger CHORDS_warm (duration + 1) time)
      | cue_exhale =>
          onNode (padSynth g) (PadTrigger CHORDS_neutral (duration + 1) time)
      | cue_hold =>
          onNode (bellFundamental g)
            (BellFundamentalNotes ["E5"%string] (1 # 2) time)
      | cue_finish => []
      end
  | bells =>
      match cue with
      | cue_inhale =>
          let freq := 180 in
          onNode (bellFundamental g)
            (BellFundamentalFreq freq (duration + 2) time)
          ++ onNode (bellHarmonic g)
               (BellHarmonicFreq (freq * (35 # 10)) (1 # 2) time)
          ++ onNode (bellVibrato g) (VibratoRampTo 3 1 time)
      | cue_exhale =>
          let freq := 120 in
          onNode (bellFundamental g)
            (BellFundamentalFreq freq (duration + 2) time)
          ++ onNode (bellHarmonic g)
               (BellHarmonicFreq (freq * (35 # 10)) (1 # 2) time)
          ++ onNode (bellVibrato g) (VibratoRampTo (45 # 10) 1 time)
      | cue_hold =>
          onNode (bellHarmonic g) (BellHarmonicFreq 800 (15 # 10) time)
      | cue_finish => []
      end
  | breath =>
      match cue with
      | cue_inhale =>
          onNode (breathFilter g) (FilterCancelScheduled time)
          ++ onNode (breathFilter g) (FilterSetValue 200 time)
          ++ onNode (breathFilter g)
               (FilterRampTo 1000 (duration * (9 # 10)) time)
          ++ onNode (breathInSynth g) (BreathInTrigger duration time)
      | cue_exhale =>
          onNode (breathFilter g) (FilterCancelScheduled time)
          ++ onNode (breathFilter g) (FilterSetValue 800 time)
          ++ onNode (breathFilter g)
               (FilterRampTo 150 (duration * (9 # 10)) time)
          ++ onNode (breathOutSynth g) (BreathOutTrigger duration time)
      | _ => []
      end
  | voice_12 =>
      let text :=
        match cue with
        | cue_inhale => match lang with vi => "Một" | en => "One" end
        | cue_exhale => match lang with vi => "Hai" | en => "Two" end
        | _ => ""
        end%string in
      if String.eqb text "" then [] else speak (toLowerCase text) lang
  | voice_en | voice_vi =>
      let text :=
        match cue with
        | cue_inhale => ph_inhale t
        | cue_exhale => ph_exhale t
        | cue_hold => ph_hold t
        | cue_finish => ""%string
        end in
      if String.eqb text "" then [] else speak (toLowerCase text) lang
  end.

(** [try { ... } catch (e) { console.warn(...) }]: the calls up to the
    first one that throws, then the warning. *)
Fixpoint attempt (calls : list Call) : list Call :=
  match calls with
  | [] => []
  | c :: rest => if throws c then [ConsoleWarn] else c :: attempt rest
  end.

(** [setupInstruments] up to its [await masterReverb.generate()]. *)
Definition setupBegun (g : Graph) : Graph :=
  mkGraph (isUnlocked g) (contextRunning g) true true true (padSynth g)
    (padChorus g) (bellFundamental g) (bellHarmonic g) (bellVibrato g)
    (breathInSynth g) (breathOutSynth g) (breathFilter g).

(** [playCue(cue, enabled, pack, duration, lang)] with [Tone.now()]
    reading [time]: the graph it leaves and the calls it makes. *)
Definition playCue (g : Graph) (cue : CueType) (enabled : bool)
    (pack : SoundPack) (duration time : Q) (lang : Language)
  : Graph * list Call :=
  if negb enabled then (g, [])
  else
    let resume := if contextRunning g then [] else [ContextResume] in
    if negb (masterGain g) then (setupBegun g, resume ++ [SetupInstruments])
    else (g, resume ++ attempt (cueCalls g cue pack duration time lang)).

End PlayCue.

(** The node of the graph a call needs. *)
Definition nodeOf (c : Call) : option (Graph -> bool) :=
  match c with
  | PadTrigger _ _ _ => Some padSynth
  | BellFundamentalNotes _ _ _ | BellFundamentalFreq _ _ _ =>
      Some bellFundamental
  | BellHarmonicFreq _ _ _ => Some bellHarmonic
  | VibratoRampTo _ _ _ => Some bellVibrato
  | FilterCancelScheduled _ | FilterSetValue _ _ | FilterRampTo _ _ _ =>
      Some breathFilter
  | BreathInTrigger _ _ => Some breathInSynth
  | BreathOutTrigger _ _ => Some breathOutSynth
  | _ => None
  end.

Definition isSound (c : Call) : bool :=
  match c with
  | ContextResume | SetupInstruments | SpeechCancel | ConsoleWarn => false
  | _ => true
  end.

Definition isSpeech (c : Call) : bool :=
  match c with
  | SpeechCancel | SpeechSpeak _ | ConsoleWarn => true
  | _ => false
  end.

Definition isVoicePack (pack : SoundPack) : bool :=
  match pack with
  | voice_en | voice_vi | voice_12 => true
  | _ => false
  end.

End Audio.

Module AudioSample.

Import Audio.
Local Open Scope Q_scope.

(** The graph when the set-up has completed and the context runs. *)
Definition ready : Graph :=
  mkGraph true true true true true true true true true true true true true.

(** The same graph with the context suspended. *)
Definition suspended : Graph :=
  mkGraph true false true true true true true true true true true true true.

Definition texts (lang : Language) : PhaseTexts :=
  match lang with
  | en => mkPhaseTexts "Inhale" "Exhale" "Hold"
  | vi => mkPhaseTexts "Hit vao" "Tho ra" "Giu"
  end.

Definition asIs (s : string) : string := s.

Definition browserVoices : list Voice :=
  [mkVoice "en-GB" "Daniel"; mkVoice "en-US" "Google US English";
   mkVoice "vi-VN" "Linh"].

Definition noThrow (c : Call) : bool := false.

End AudioSample.

(* ===================================================================== *)
(** ** Two sessions, step by step *)
(* ===================================================================== *)

(** The phase and the cycle count of the store after each step of a
    run. *)
Fixpoint observe (sts : list EngineStep) (w : World)
  : list (BreathPhase * Z) :=
  match sts with
  | [] => []
  | st :: rest =>
      let w' := after (step st) w in
      (phase (store w'), cycleCount (store w')) :: observe rest w'
  end.

Module Scenario.

Import Sample.
Local Open Scope Q_scope.

Definition box : BreathPattern := BREATHING_PATTERNS bt_box.

(** A box session just started, the hook mounted with fresh refs. *)
Definition started : World :=
  sessionStart bt_box t1 initialState (initialRefs initialSettings) [] O.

(** One lap of the box pattern, 4 seconds a phase, with a pause of one
    second during holdOut. Each phase change is followed by the cleanup
    and the run of the main effect for the render of the new phase. The
    visibility listener is registered anew when isActive or isPaused
    changes: after the resume it is the listener of the render in
    holdOut, whose [loop] closure holds phase holdOut. *)
Definition lap : list EngineStep :=
  [StepEffect (render inhale box) 1000;
   StepFrame 0 5000 5000;
   StepCleanup; StepEffect (render holdIn box) 5010;
   StepFrame 2 9010 9010;
   StepCleanup; StepEffect (render exhale box) 9020;
   StepFrame 4 13020 13020;
   StepCleanup; StepEffect (render holdOut box) 13030;
   StepTogglePause;
   StepCleanup; StepEffect (mkRender true true holdOut box) 14000;
   StepTogglePause;
   StepEffect (render holdOut box) 15000;
   StepFrame 7 18030 18030;
   StepCleanup; StepEffect (render inhale box) 18040].

(** In inhale the page is hidden for a second and shown again: the
    listener requests a frame for its own [loop], and that loop fires
    every 4 seconds. Its [setPhase('inhale')] does not change the phase,
    so no render follows and the main effect does not run again. *)
Definition hiddenAndShown : list EngineStep :=
  [StepVis (render holdOut box) true 19000;
   StepVis (render holdOut box) false 20000;
   StepFrame 10 24000 24000;
   StepFrame 11 28000 28000;
   StepFrame 12 32000 32000].

(** A running session in exhale (phase-start 5000, 4 seconds) is paused
    at 7000; the page is hidden at 8000 and shown at 9000, the session
    still paused; it is resumed at 10000. *)
Definition pausedHiddenResumed : list EngineStep :=
  [StepTogglePause;
   StepCleanup; StepEffect (mkRender true true exhale box) 7000;
   StepVis (mkRender true true exhale box) true 8000;
   StepVis (mkRender true true exhale box) false 9000;
   StepTogglePause;
   StepEffect (render exhale box) 10000].

End Scenario.
(* ===================================================================== *)
(** ** Properties of the session store *)
(* ===================================================================== *)

Section StoreProperties.

Local Open Scope Z_scope.

Lemma withStreak_same (u : UserSettings) :
  Store.withStreak u (streak u, lastBreathDate u) = u.
Proof. destruct u; reflexivity. Qed.

Lemma firstn_cons_100 {A} (x : A) (l : list A) :
  firstn 100 (x :: l) = x :: firstn 99 l.
Proof. reflexivity. Qed.

Lemma firstn_pred_length {A} (l : list A) (n : nat) :
  List.length l = S n -> firstn n l = removelast l.
Proof.
  revert n; induction l as [|a l IH]; intros n Hl; [discriminate|].
  destruct l as [|b l].
  - simpl in Hl. injection Hl as <-. reflexivity.
  - destruct n as [|n]; [discriminate|].
    change (a :: firstn n (b :: l) = a :: removelast (b :: l)).
    f_equal. apply IH. simpl in *. lia.
Qed.

Lemma newHistory_length_le (e : FinishEnv) (s : BreathState) :
  (List.length (history s) <= 100)%nat ->
  (List.length (Store.newHistory e s) <= 100)%nat.
Proof.
  intros H. unfold Store.newHistory.
  destruct (10 <? Store.durationSec e s); [|exact H].
  rewrite length_firstn. lia.
Qed.

Lemma dispatch_length_le (a : Store.Action) (s : BreathState) :
  (List.length (history s) <= 100)%nat ->
  (List.length (history (Store.dispatch a s)) <= 100)%nat.
Proof.
  intros H. destruct a; simpl; try exact H; try lia.
  apply newHistory_length_le, H.
Qed.

Lemma run_length_le (acts : list Store.Action) (s : BreathState) :
  (List.length (history s) <= 100)%nat ->
  (List.length (history (Store.run acts s)) <= 100)%nat.
Proof.
  revert s; induction acts as [|a acts IH]; intros s H; simpl; [exact H|].
  apply IH, dispatch_length_le, H.
Qed.

(** C1, as the code has it: [finishSession] tests neither [isActive] nor
    the sign of the duration. Whenever the duration it computes,
    [floor((now - sessionStartTime) / 1000)], is at most 10 seconds (so for
    every zero or negative duration, which meets the thresholds as it is),
    history, streak and lastBreathDate, and with them all the user
    settings, are left as they were, whether a session is active or not. *)
Theorem finishSession_short_duration_keeps
    (e : FinishEnv) (s : BreathState) :
  Store.durationSec e s <= 10 ->
  history (Store.finishSession e s) = history s
  /\ streak (userSettings (Store.finishSession e s)) = streak (userSettings s)
  /\ lastBreathDate (userSettings (Store.finishSession e s))
     = lastBreathDate (userSettings s)
  /\ userSettings (Store.finishSession e s) = userSettings s.
Proof.
  intros Hd.
  assert (H10 : (10 <? Store.durationSec e s) = false)
    by (apply Z.ltb_ge; exact Hd).
  assert (H30 : (30 <? Store.durationSec e s) = false)
    by (apply Z.ltb_ge; lia).
  unfold Store.finishSession, Store.newHistory, Store.newStreakDate; simpl.
  rewrite H10, H30; simpl.
  rewrite withStreak_same. repeat split; reflexivity.
Qed.

(** C2: the streak decision table of [finishSession]. Today and yesterday
    are two different calendar dates. *)
Theorem finishSession_streak_table (e : FinishEnv) (s : BreathState) :
  today e <> yesterday e ->
  let d := Store.durationSec e s in
  let u := userSettings s in
  let u' := userSettings (Store.finishSession e s) in
  (d <= 30 -> streak u' = streak u /\ lastBreathDate u' = lastBreathDate u)
  /\ (30 < d -> lastBreathDate u = today e ->
      streak u' = streak u /\ lastBreathDate u' = lastBreathDate u)
  /\ (30 < d -> lastBreathDate u = yesterday e ->
      streak u' = streak u + 1 /\ lastBreathDate u' = today e)
  /\ (30 < d -> lastBreathDate u <> today e ->
      lastBreathDate u <> yesterday e ->
      streak u' = 1 /\ lastBreathDate u' = today e)
  /\ u' = Store.withStreak u (streak u', lastBreathDate u').
Proof.
  intros Hty d u u'. subst d u u'.
  unfold Store.finishSession, Store.newStreakDate; simpl.
  destruct (Z.ltb_spec 30 (Store.durationSec e s)) as [Hd|Hd];
    destruct (String.eqb_spec (lastBreathDate (userSettings s)) (today e))
      as [Ht|Ht];
    destruct (String.eqb_spec (lastBreathDate (userSettings s)) (yesterday e))
      as [Hy|Hy];
    simpl; repeat split; intros; try reflexivity; try lia; try congruence.
Qed.

(** C3: [finishSession] puts exactly one new item in front of the history
    iff the duration exceeds 10 seconds, and keeps the first 100 entries;
    with 100 entries already there the new list is the new item followed
    by the old list without its last (oldest) entry; every other action
    but [clearHistory] leaves the history as it is, and from the initial
    store no sequence of actions makes it longer than 100. *)
Theorem history_prepend_capped :
  (forall e s,
      history (Store.finishSession e s)
      = if 10 <? Store.durationSec e s
        then Store.newItem e s :: firstn 99 (history s)
        else history s)
  /\ (forall e s, 10 < Store.durationSec e s ->
        (List.length (history (Store.finishSession e s)) <= 100)%nat
        /\ ((List.length (history s) < 100)%nat ->
            history (Store.finishSession e s)
            = Store.newItem e s :: history s)
        /\ (List.length (history s) = 100%nat ->
            history (Store.finishSession e s)
            = Store.newItem e s :: removelast (history s)
            /\ List.length (history (Store.finishSession e s)) = 100%nat))
  /\ (forall a s,
        history (Store.dispatch a s)
        = match a with
          | Store.AFinishSession e => history (Store.finishSession e s)
          | Store.AClearHistory => []
          | _ => history s
          end)
  /\ (forall acts,
        (List.length (history (Store.run acts initialState)) <= 100)%nat).
Proof.
  split; [|split; [|split]].
  - intros e s. unfold Store.finishSession, Store.newHistory; simpl.
    destruct (10 <? Store.durationSec e s); reflexivity.
  - intros e s Hd.
    assert (H10 : (10 <? Store.durationSec e s) = true)
      by (apply Z.ltb_lt; exact Hd).
    unfold Store.finishSession, Store.newHistory; cbn [history].
    rewrite H10, firstn_cons_100. split; [|split].
    + cbn [List.length]. rewrite length_firstn. lia.
    + intros Hlt. rewrite firstn_all2 by lia. reflexivity.
    + intros Hfull. rewrite (firstn_pred_length (history s) 99 Hfull).
      split; [reflexivity|]. cbn [List.length].
      destruct (history s) as [|x l] eqn:Hh; [discriminate|].
      rewrite <- Hh in *.
      assert (Hne : history s <> []) by (rewrite Hh; discriminate).
      pose proof (app_removelast_last x Hne) as Hsplit.
      apply (f_equal (@List.length _)) in Hsplit.
      rewrite length_app in Hsplit. simpl in Hsplit. lia.
  - intros a s. destruct a; reflexivity.
  - intros acts. apply run_length_le. simpl. lia.
Qed.

(** C10: [startSession], for every pattern table and every prior state. *)
Theorem startSession_resets_session
    (table : BreathingType -> BreathPattern) (type : BreathingType)
    (now : Z) (s : BreathState) :
  let s' := Store.startSessionIn table type now s in
  isActive s' = true
  /\ isPaused s' = false
  /\ phase s' = inhale
  /\ cycleCount s' = 0
  /\ sessionStartTime s' = now
  /\ showSummary s' = false
  /\ currentPattern s' = table type
  /\ history s' = history s
  /\ userSettings s' = userSettings s
  /\ hasSeenOnboarding s' = hasSeenOnboarding s
  /\ lastSessionStats s' = lastSessionStats s
  /\ Store.startSession type now s
     = Store.startSessionIn BREATHING_PATTERNS type now s.
Proof. cbv zeta. repeat split; reflexivity. Qed.

End StoreProperties.

Section StoreScenarios.

Local Open Scope Z_scope.
Import Sample.

(** An 8 second session appends nothing, a 15 second session one item. *)
Example finish_after_8s :
  history (session t1 8 day1 day0 initialState) = [].
Proof. reflexivity. Qed.

Example finish_after_15s :
  history (session t1 15 day1 day0 initialState)
  = [mkItem "17934408150004821" (t1 + 15000) 15 bt_box 0].
Proof. vm_compute. reflexivity. Qed.

(** 35 seconds with no prior streak credit the day; a second session of
    35 seconds the same day keeps the streak at 1. *)
Example streak_first_day :
  let s1 := session t1 35 day1 day0 initialState in
  let s2 := session (t1 + 3600000) 35 day1 day0 s1 in
  streak (userSettings s1) = 1
  /\ lastBreathDate (userSettings s1) = day1
  /\ streak (userSettings s2) = 1
  /\ lastBreathDate (userSettings s2) = day1.
Proof. vm_compute. repeat split; reflexivity. Qed.

(** 31 seconds on the day after a credited day increment the streak. *)
Example streak_next_day :
  let s := withStreakDate 4 day1 initialState in
  streak (userSettings (session t2 31 day2 day1 s)) = 5
  /\ lastBreathDate (userSettings (session t2 31 day2 day1 s)) = day2.
Proof. vm_compute. split; reflexivity. Qed.

(** The 101st append keeps 100 entries and drops the oldest one. *)
Example history_101st_append :
  let s := withHistory (oldHistory 100) initialState in
  let h := history (session t2 15 day2 day1 s) in
  List.length h = 100%nat
  /\ h = Store.newItem (envAt (t2 + 15000) day2 day1)
           (Store.startSession bt_box t2 s)
         :: removelast (oldHistory 100)
  /\ last (oldHistory 100) (oldItem 0) = oldItem 1
  /\ last h (oldItem 0) = oldItem 2.
Proof. vm_compute. repeat split; reflexivity. Qed.

Lemma finishSession_short_duration_keeps_witness :
  Store.durationSec (envAt (t1 + 8000) day1 day0)
    (Store.startSession bt_box t1 initialState) <= 10
  /\ history (session t1 8 day1 day0 initialState) = history initialState
  /\ streak (userSettings (session t1 8 day1 day0 initialState)) = 0.
Proof.
  assert (Hd : Store.durationSec (envAt (t1 + 8000) day1 day0)
                 (Store.startSession bt_box t1 initialState) <= 10)
    by (vm_compute; discriminate).
  split; [exact Hd|].
  destruct (finishSession_short_duration_keeps _ _ Hd) as [Hh [Hs _]].
  split; [exact Hh | exact Hs].
Defined.

(** C1 as stated fails: with no session active, and [sessionStartTime]
    at the 0 the store starts with (and that stop and finish leave),
    [finishSession] takes the whole clock reading as the duration,
    appends a history item and credits the streak. *)
Lemma finishSession_inactive_counterexample :
  let e := envAt t1 day1 day0 in
  isActive initialState = false
  /\ history initialState = []
  /\ history (Store.finishSession e initialState)
     = [mkItem "17934408000004821" t1 1793440800 bt_4_7_8 0]
  /\ streak (userSettings initialState) = 0
  /\ streak (userSettings (Store.finishSession e initialState)) = 1
  /\ lastBreathDate (userSettings initialState) = ""%string
  /\ lastBreathDate (userSettings (Store.finishSession e initialState))
     = day1.
Proof. vm_compute. repeat split; reflexivity. Qed.

(** Two calls in succession append twice; and a clock reading before the
    session start gives a negative duration, recorded as it is. *)
Example finishSession_twice :
  let s1 := session t1 15 day1 day0 initialState in
  let s2 := Store.finishSession (envAt (t1 + 15001) day1 day0) s1 in
  isActive s1 = false
  /\ List.length (history s1) = 1%nat
  /\ List.length (history s2) = 2%nat.
Proof. vm_compute. repeat split; reflexivity. Qed.

Example finishSession_negative_duration :
  let s := Store.startSession bt_box t1 initialState in
  let s' := Store.finishSession (envAt (t1 - 3500) day1 day0) s in
  option_map stats_durationSec (lastSessionStats s') = Some (-4)
  /\ history s' = [].
Proof. vm_compute. split; reflexivity. Qed.

Lemma finishSession_streak_table_witness :
  let s := withStreakDate 4 day1
             (Store.startSession bt_box t2 initialState) in
  let e := envAt (t2 + 31000) day2 day1 in
  streak (userSettings (Store.finishSession e s)) = 4 + 1
  /\ lastBreathDate (userSettings (Store.finishSession e s)) = day2.
Proof.
  cbv zeta.
  assert (Hty : today (envAt (t2 + 31000) day2 day1)
                <> yesterday (envAt (t2 + 31000) day2 day1))
    by (vm_compute; discriminate).
  destruct (finishSession_streak_table
              (envAt (t2 + 31000) day2 day1)
              (withStreakDate 4 day1
                 (Store.startSession bt_box t2 initialState)) Hty)
    as [_ [_ [Hy _]]].
  apply Hy; [vm_compute; reflexivity | reflexivity].
Defined.

Lemma history_prepend_capped_witness :
  let s := Store.startSession bt_box t2
             (withHistory (oldHistory 100) initialState) in
  let e := envAt (t2 + 15000) day2 day1 in
  history (Store.finishSession e s)
  = Store.newItem e s :: removelast (history s)
  /\ List.length (history (Store.finishSession e s)) = 100%nat.
Proof.
  cbv zeta.
  destruct history_prepend_capped as [_ [Happend _]].
  destruct (Happend (envAt (t2 + 15000) day2 day1)
              (Store.startSession bt_box t2
                 (withHistory (oldHistory 100) initialState)))
    as [_ [_ Hfull]].
  - vm_compute. reflexivity.
  - apply Hfull. vm_compute. reflexivity.
Defined.

End StoreScenarios.

(* ===================================================================== *)
(** ** Properties of the phase machine *)
(* ===================================================================== *)

Section PhaseMachine.

Local Open Scope Q_scope.

Lemma positive_true (d : Q) : positive d = true <-> 0 < d.
Proof.
  unfold positive. rewrite negb_true_iff. split.
  - intros H. apply Qnot_le_lt. intros Hle.
    apply Qle_bool_iff in Hle. congruence.
  - intros H. destruct (Qle_bool d 0) eqn:E; [|reflexivity].
    apply Qle_bool_iff in E. exfalso. apply (Qlt_not_le _ _ H E).
Qed.

Lemma positive_false (d : Q) : positive d = false <-> ~ 0 < d.
Proof.
  rewrite <- positive_true. destruct (positive d); split; intros H;
    try reflexivity; try discriminate; try (intros H'; discriminate).
  exfalso. apply H. reflexivity.
Qed.

Lemma isPatternValid_true (pattern : BreathPattern) :
  isPatternValid pattern = true
  <-> exists p, 0 < timing (timings pattern) p.
Proof.
  unfold isPatternValid. rewrite !orb_true_iff, !positive_true. split.
  - intros [[[H|H]|H]|H]; eauto.
  - intros [[] H]; tauto.
Qed.

Lemma isPatternValid_false (pattern : BreathPattern) :
  isPatternValid pattern = false
  <-> forall p, ~ 0 < timing (timings pattern) p.
Proof.
  unfold isPatternValid. rewrite !orb_false_iff, !positive_false. split.
  - intros [[[H1 H2] H3] H4] []; assumption.
  - intros H. repeat split; apply H.
Qed.

(** The search stops at the first positive duration. *)
Lemma searchForward_found (pattern : BreathPattern) :
  forall fuel p q,
    searchForward fuel p pattern = Some q ->
    exists n, (n < fuel)%nat
      /\ q = iterNext (S n) p
      /\ 0 < timing (timings pattern) q
      /\ forall z, In z (skipped n p) -> ~ 0 < timing (timings pattern) z.
Proof.
  induction fuel as [|fuel IH]; intros p q H; [discriminate|].
  simpl in H.
  destruct (positive (timing (timings pattern) (cyclicNext p))) eqn:E.
  - injection H as <-. exists O. split; [lia|].
    split; [reflexivity|]. split; [apply positive_true, E|].
    intros z [].
  - destruct (IH _ _ H) as [n [Hn [Hq [Hpos Hskip]]]].
    exists (S n). split; [lia|]. split; [exact Hq|]. split; [exact Hpos|].
    intros z [<-|Hz]; [apply positive_false, E | apply Hskip, Hz].
Qed.

(** Four candidates are enough: they are all the phases. *)
Lemma searchForward_none (pattern : BreathPattern) (p : BreathPhase) :
  searchForward 4 p pattern = None -> isPatternValid pattern = false.
Proof.
  unfold isPatternValid. destruct p; simpl;
    destruct (positive (t_inhale (timings pattern)));
    destruct (positive (t_holdIn (timings pattern)));
    destruct (positive (t_exhale (timings pattern)));
    destruct (positive (t_holdOut (timings pattern)));
    simpl; intros H; try discriminate; reflexivity.
Qed.

Lemma searchForward_invalid (pattern : BreathPattern) :
  isPatternValid pattern = false ->
  forall fuel p, searchForward fuel p pattern = None.
Proof.
  intros Hinv0.
  pose proof (proj1 (isPatternValid_false pattern) Hinv0) as Hinv.
  induction fuel as [|fuel IH]; intros p; [reflexivity|]. simpl.
  destruct (positive (timing (timings pattern) (cyclicNext p))) eqn:E.
  - apply positive_true in E. destruct (Hinv _ E).
  - apply IH.
Qed.

Lemma nextPhaseSkipZero_valid (p : BreathPhase) (pattern : BreathPattern) :
  isPatternValid pattern = true ->
  exists next, nextPhaseSkipZero p pattern = inr next.
Proof.
  intros Hv. unfold nextPhaseSkipZero.
  destruct (searchForward 4 p pattern) as [q|] eqn:E; [eauto|].
  apply searchForward_none in E. congruence.
Qed.

(** C4: on a pattern with a positive duration [nextPhaseSkipZero] returns
    the first phase after [current], in cyclic order, whose duration is
    positive, every phase it passes over having none; with one positive
    phase it returns that phase; 4-7-8 runs inhale, holdIn, exhale, inhale;
    with no positive duration it signals the invalid pattern. The function
    is total. *)
Theorem nextPhaseSkipZero_cyclic (current : BreathPhase)
    (pattern : BreathPattern) :
  ((exists p, 0 < timing (timings pattern) p) ->
   exists n next,
     (n < 4)%nat
     /\ nextPhaseSkipZero current pattern = inr next
     /\ next = iterNext (S n) current
     /\ 0 < timing (timings pattern) next
     /\ forall z, In z (skipped n current) ->
                  ~ 0 < timing (timings pattern) z)
  /\ (0 < timing (timings pattern) current ->
      (forall z, z <> current -> ~ 0 < timing (timings pattern) z) ->
      nextPhaseSkipZero current pattern = inr current)
  /\ ((forall p, ~ 0 < timing (timings pattern) p) ->
      nextPhaseSkipZero current pattern = inl InvalidPattern)
  /\ (let p478 := BREATHING_PATTERNS bt_4_7_8 in
      nextPhaseSkipZero inhale p478 = inr holdIn
      /\ nextPhaseSkipZero holdIn p478 = inr exhale
      /\ nextPhaseSkipZero exhale p478 = inr inhale).
Proof.
  split; [|split; [|split]].
  - intros Hv.
    destruct (nextPhaseSkipZero_valid current pattern
                (proj2 (isPatternValid_true pattern) Hv)) as [next Hn].
    unfold nextPhaseSkipZero in *.
    destruct (searchForward 4 current pattern) as [q|] eqn:E;
      [|discriminate].
    injection Hn as <-.
    destruct (searchForward_found pattern _ _ _ E) as [n [Hlt [Hq [Hp Hs]]]].
    exists n, q. repeat split; assumption.
  - intros Hc Hothers.
    apply positive_true in Hc.
    assert (Hz : forall z, z <> current ->
                 positive (timing (timings pattern) z) = false)
      by (intros z Hne; apply positive_false, Hothers, Hne).
    unfold nextPhaseSkipZero.
    destruct current;
      [ pose proof (Hz holdIn) as H1; pose proof (Hz exhale) as H2;
        pose proof (Hz holdOut) as H3
      | pose proof (Hz inhale) as H1; pose proof (Hz exhale) as H2;
        pose proof (Hz holdOut) as H3
      | pose proof (Hz inhale) as H1; pose proof (Hz holdIn) as H2;
        pose proof (Hz holdOut) as H3
      | pose proof (Hz inhale) as H1; pose proof (Hz holdIn) as H2;
        pose proof (Hz exhale) as H3 ];
      simpl in *;
      rewrite H1, H2, H3, Hc by discriminate; reflexivity.
  - intros Hinv.
    unfold nextPhaseSkipZero.
    rewrite (searchForward_invalid pattern
               (proj2 (isPatternValid_false pattern) Hinv)).
    reflexivity.
  - cbv zeta. repeat split; reflexivity.
Qed.

End PhaseMachine.

(* ===================================================================== *)
(** ** The engine loop, case by case *)
(* ===================================================================== *)

Section LoopCases.

Local Open Scope Q_scope.

Lemma stopRaf_stopped (w : World) : stopRaf w = Done tt (stopped w).
Proof.
  unfold stopped. run_engine. destruct (rafIdRef (refs w)); reflexivity.
Qed.

Lemma loop_invalid (r : Render) (now perfNow : Q) (w : World) :
  isPatternValid (r_currentPattern r) = false ->
  loop r now perfNow w = Done tt (stopped (withProgress 0 w)).
Proof.
  intros Hinv. unfold loop. rewrite Hinv. cbn [negb].
  unfold bind at 1. unfold setProgress, modifyRefs.
  apply stopRaf_stopped.
Qed.

Lemma loop_stay (r : Render) (now perfNow : Q) (w : World) :
  isPatternValid (r_currentPattern r) = true ->
  Qle_bool (timing (timings (r_currentPattern r)) (r_phase r))
           (elapsedSecAt now (startTimeRef (refs w))) = false ->
  loop r now perfNow w
  = Done tt
      (scheduled r
         (withProgress
            (progressOf (elapsedSecAt now (startTimeRef (refs w)))
               (timing (timings (r_currentPattern r)) (r_phase r))) w)).
Proof.
  intros Hv Hlt. unfold loop. rewrite Hv. run_engine.
  rewrite Hlt. reflexivity.
Qed.

Lemma loop_cross (r : Render) (now perfNow : Q) (w : World)
    (next : BreathPhase) :
  isPatternValid (r_currentPattern r) = true ->
  Qle_bool (timing (timings (r_currentPattern r)) (r_phase r))
           (elapsedSecAt now (startTimeRef (refs w))) = true ->
  nextPhaseSkipZero (r_phase r) (r_currentPattern r) = inr next ->
  loop r now perfNow w = Done tt (scheduled r (transitioned r next perfNow w)).
Proof.
  intros Hv Hge Hnext. unfold loop. rewrite Hv. run_engine.
  rewrite Hge, Hnext. unfold scheduled, transitioned, cueEvents.
  destruct (isCycleBoundary next);
    cbn [store refs pending nextFrameId events settingsRef startTimeRef
         pausedAtRef rafIdRef wasHiddenRef progressRef];
    rewrite <- ?app_assoc; reflexivity.
Qed.

(** [loop] never throws: the validity guard covers the one call that
    could. *)
Lemma loop_total (r : Render) (now perfNow : Q) (w : World) :
  exists w', loop r now perfNow w = Done tt w'.
Proof.
  destruct (isPatternValid (r_currentPattern r)) eqn:Hv.
  - destruct (Qle_bool (timing (timings (r_currentPattern r)) (r_phase r))
                (elapsedSecAt now (startTimeRef (refs w)))) eqn:Hc.
    + destruct (nextPhaseSkipZero_valid (r_phase r) _ Hv) as [next Hn].
      eexists. apply (loop_cross r now perfNow w next Hv Hc Hn).
    + eexists. apply (loop_stay r now perfNow w Hv Hc).
  - eexists. apply (loop_invalid r now perfNow w Hv).
Qed.

End LoopCases.

(* ===================================================================== *)
(** ** Properties of one tick *)
(* ===================================================================== *)

Section Tick.

Local Open Scope Q_scope.

Lemma epsilon_positive (d : Q) : 0 < Qmax d epsilon.
Proof.
  apply Qlt_le_trans with epsilon; [reflexivity | apply Q.le_max_r].
Qed.

Lemma progressOf_bounds (elapsedSec duration : Q) :
  0 <= progressOf elapsedSec duration <= 1.
Proof.
  unfold progressOf. split.
  - apply Q.le_max_l.
  - apply Q.max_lub; [discriminate | apply Q.le_min_r].
Qed.

Lemma eventsSince_app (w w' : World) (new : list Event) :
  events w' = events w ++ new -> eventsSince w w' = new.
Proof.
  intros H. unfold eventsSince. rewrite H. clear H.
  induction (events w) as [|e l IH]; [reflexivity | exact IH].
Qed.

Lemma stopped_progress (w : World) :
  progressRef (refs (stopped w)) = progressRef (refs w)
  /\ rafIdRef (refs (stopped w)) = None
  /\ store (stopped w) = store w
  /\ nextFrameId (stopped w) = nextFrameId w
  /\ incl (pending (stopped w)) (pending w).
Proof.
  unfold stopped. destruct (rafIdRef (refs w)) as [id|] eqn:E; simpl.
  - repeat split; try reflexivity. apply incl_filter.
  - repeat split; try reflexivity; [exact E | apply incl_refl].
Qed.

(** C9: a tick on a pattern with no positive duration writes progress 0,
    cancels the frame it knows of, requests none and touches neither the
    store nor the cues; no tick throws. On every other pattern the tick
    writes max(0, min(elapsedSec / max(duration, 1e-6), 1)) with
    elapsedSec = (now - startTime) / 1000, and leaves it in [progressRef]
    unless elapsedSec >= duration, when the phase ends and it leaves 0.
    The divisor is positive and the clamped quotient is between 0 and 1
    for every elapsed time and duration, zero and negative ones
    included, so after every tick the progress is between 0 and 1. *)
Theorem loop_fail_safe_and_clamp (r : Render) (now perfNow : Q) (w : World) :
  ((forall p, ~ 0 < timing (timings (r_currentPattern r)) p) ->
   exists w',
     loop r now perfNow w = Done tt w'
     /\ progressRef (refs w') = 0
     /\ rafIdRef (refs w') = None
     /\ nextFrameId w' = nextFrameId w
     /\ incl (pending w') (pending w)
     /\ store w' = store w
     /\ filter isPlayCue (eventsSince w w') = [])
  /\ (exists w', loop r now perfNow w = Done tt w'
                 /\ 0 <= progressRef (refs w') <= 1)
  /\ ((exists p, 0 < timing (timings (r_currentPattern r)) p) ->
      let duration := timing (timings (r_currentPattern r)) (r_phase r) in
      let elapsedSec := (now - startTimeRef (refs w)) / 1000 in
      exists w',
        loop r now perfNow w = Done tt w'
        /\ progressRef (refs w')
           = if Qle_bool duration elapsedSec then 0
             else Qmax 0 (Qmin (elapsedSec / Qmax duration (1 # 1000000)) 1))
  /\ (forall elapsedSec duration,
        0 < Qmax duration (1 # 1000000)
        /\ progressOf elapsedSec duration
           = Qmax 0 (Qmin (elapsedSec / Qmax duration (1 # 1000000)) 1)
        /\ 0 <= Qmax 0 (Qmin (elapsedSec / Qmax duration (1 # 1000000)) 1)
           <= 1).
Proof.
  split; [|split; [|split]].
  - intros Hinv. apply isPatternValid_false in Hinv.
    eexists. split; [apply (loop_invalid r now perfNow w Hinv)|].
    destruct (stopped_progress (withProgress 0 w)) as [Hp [Hr [Hs [Hn Hi]]]].
    rewrite Hp, Hr, Hs, Hn. repeat split; try reflexivity; try exact Hi.
    unfold stopped, withProgress; cbn [refs rafIdRef].
    destruct (rafIdRef (refs w)).
    + erewrite eventsSince_app by reflexivity. reflexivity.
    + erewrite eventsSince_app
        by (cbn [events]; rewrite app_nil_r; reflexivity).
      reflexivity.
  - destruct (isPatternValid (r_currentPattern r)) eqn:Hv.
    + destruct (Qle_bool (timing (timings (r_currentPattern r)) (r_phase r))
                  (elapsedSecAt now (startTimeRef (refs w)))) eqn:Hc.
      * destruct (nextPhaseSkipZero_valid (r_phase r) _ Hv) as [next Hn].
        eexists. split; [apply (loop_cross r now perfNow w next Hv Hc Hn)|].
        cbn. split; discriminate.
      * eexists. split; [apply (loop_stay r now perfNow w Hv Hc)|].
        cbn [scheduled withProgress refs progressRef].
        apply progressOf_bounds.
    + eexists. split; [apply (loop_invalid r now perfNow w Hv)|].
      destruct (stopped_progress (withProgress 0 w)) as [Hp _].
      rewrite Hp. cbn. split; discriminate.
  - intros Hv. apply isPatternValid_true in Hv. cbv zeta.
    change ((now - startTimeRef (refs w)) / 1000)
      with (elapsedSecAt now (startTimeRef (refs w))).
    destruct (Qle_bool (timing (timings (r_currentPattern r)) (r_phase r))
                (elapsedSecAt now (startTimeRef (refs w)))) eqn:Hc.
    + destruct (nextPhaseSkipZero_valid (r_phase r) _ Hv) as [next Hn].
      eexists. split; [apply (loop_cross r now perfNow w next Hv Hc Hn)|].
      reflexivity.
    + eexists. split; [apply (loop_stay r now perfNow w Hv Hc)|].
      reflexivity.
  - intros e d. split; [apply epsilon_positive|].
    split; [reflexivity | apply progressOf_bounds].
Qed.

(** C6, as the code has it: a tick that crosses a phase boundary
    increments the cycle count first (when the next phase is inhale), then
    sets the phase, then emits the haptic and the sound cue of the new
    phase with its duration, then requests the next frame; the tick plays
    exactly one cue, and the phase is set before it. *)
Theorem loop_transition_order (r : Render) (now perfNow : Q) (w : World) :
  crosses r now w = true ->
  exists next w',
    nextPhaseSkipZero (r_phase r) (r_currentPattern r) = inr next
    /\ loop r now perfNow w = Done tt w'
    /\ eventsSince w w'
       = (if isCycleBoundary next then [EvIncrementCycle] else [])
         ++ [EvSetPhase next]
         ++ cueEvents (settingsRef (refs w)) next
              (timing (timings (r_currentPattern r)) next)
         ++ [EvRequestFrame (nextFrameId w)]
    /\ phase (store w') = next
    /\ countEv isPlayCue (eventsSince w w') = 1%nat
    /\ indexWhere isIncrement (eventsSince w w')
       = (if isCycleBoundary next then Some 0%nat else None)
    /\ indexWhere isSetPhase (eventsSince w w')
       = Some (if isCycleBoundary next then 1%nat else 0%nat)
    /\ indexWhere isPlayCue (eventsSince w w')
       = Some (if isCycleBoundary next then 3%nat else 2%nat).
Proof.
  unfold crosses. intros H. apply andb_true_iff in H as [Hv Hc].
  destruct (nextPhaseSkipZero_valid (r_phase r) _ Hv) as [next Hn].
  exists next. eexists. split; [exact Hn|].
  split; [apply (loop_cross r now perfNow w next Hv Hc Hn)|].
  erewrite eventsSince_app
    by (unfold scheduled, transitioned; cbn [events nextFrameId];
        rewrite <- !app_assoc; reflexivity).
  destruct (isCycleBoundary next); repeat split; reflexivity.
Qed.

End Tick.

(* ===================================================================== *)
(** ** Pause, resume and visibility *)
(* ===================================================================== *)

Section PauseAndVisibility.

Local Open Scope Q_scope.

Lemma progressOf_compat (e1 e2 d : Q) :
  e1 == e2 -> progressOf e1 d == progressOf e2 d.
Proof. intros H. unfold progressOf. rewrite H. reflexivity. Qed.

(** X22: a pause (the main effect cleaned up and run again by a paused
    render at [tp]) followed at once, with no visibility change in
    between, by a resume (the main effect run by a running
    render at [tr]), on a running session whose clock readings are
    positive. The progress fraction is the same before the pause, during it
    and after the resume; phase-start is moved forward by [tr - tp], so
    at every later time the elapsed time in the phase is what it would
    have been without the pause less the paused time, and a tick at the
    moment of the resume computes the progress a tick at the moment of the
    pause computes; the resume emits no cue. *)
Theorem pause_resume_no_jump (rp rr : Render) (tp tr : Q) (w : World) :
  r_isActive rp = true -> r_isPaused rp = true ->
  r_isActive rr = true -> r_isPaused rr = false ->
  0 < startTimeRef (refs w) -> 0 < tp ->
  exists w1 w2,
    (mainEffectCleanup ;; mainEffect rp tp)%engine w = Done tt w1
    /\ mainEffect rr tr w1 = Done tt w2
    /\ progressRef (refs w1) = progressRef (refs w)
    /\ progressRef (refs w2) = progressRef (refs w)
    /\ pausedAtRef (refs w1) = tp
    /\ pending w1 = pending (stopped w)
    /\ startTimeRef (refs w2) = startTimeRef (refs w) + (tr - tp)
    /\ pausedAtRef (refs w2) = 0
    /\ (forall now,
          elapsedSecAt now (startTimeRef (refs w2))
          == elapsedSecAt now (startTimeRef (refs w)) - (tr - tp) / 1000)
    /\ (forall duration,
          progressOf (elapsedSecAt tr (startTimeRef (refs w2))) duration
          == progressOf (elapsedSecAt tp (startTimeRef (refs w))) duration)
    /\ store w2 = store w
    /\ eventsSince w1 w2 = [EvRequestFrame (nextFrameId w1)].
Proof.
  intros Hap Hpp Har Hpr Hstart Htp.
  apply positive_true in Hstart. apply positive_true in Htp.
  assert (Hs : forall x, stopRaf x = Done tt (stopped x))
    by apply stopRaf_stopped.
  assert (Hq : startTimeRef (refs (stopped w)) = startTimeRef (refs w)
               /\ progressRef (refs (stopped w)) = progressRef (refs w)
               /\ rafIdRef (refs (stopped w)) = None
               /\ store (stopped w) = store w).
  { unfold stopped. destruct (rafIdRef (refs w)) eqn:E;
      repeat split; try reflexivity. exact E. }
  destruct Hq as [Hq1 [Hq2 [Hq3 Hq4]]].
  unfold mainEffectCleanup, mainEffect. rewrite Hap, Hpp, Har, Hpr.
  cbn [negb]. unfold bind at 1. rewrite Hs.
  unfold bind at 1. unfold setPausedAt, modifyRefs at 1.
  rewrite Hs. unfold stopped at 1. cbn [refs rafIdRef]. rewrite Hq3.
  eexists. eexists. split; [reflexivity|].
  run_engine. rewrite Htp, Hq1, Hstart. cbn [andb].
  split; [reflexivity|].
  cbn [refs progressRef pausedAtRef startTimeRef pending store events
       nextFrameId].
  rewrite Hq2, Hq4.
  repeat split; try reflexivity.
  - intros now. unfold elapsedSecAt. field.
  - intros duration. apply progressOf_compat. unfold elapsedSecAt. field.
  - erewrite eventsSince_app by (cbn [events]; reflexivity). reflexivity.
Qed.

(** The world a [visibilitychange] to hidden leaves. *)
Lemma onVis_hidden (r : Render) (th : Q) (w : World) :
  exists w1,
    onVis r true th w = Done tt w1
    /\ wasHiddenRef (refs w1) = true
    /\ pausedAtRef (refs w1) = th
    /\ rafIdRef (refs w1) = None
    /\ startTimeRef (refs w1) = startTimeRef (refs w)
    /\ progressRef (refs w1) = progressRef (refs w)
    /\ store w1 = store w.
Proof.
  unfold onVis. unfold bind at 1. unfold setWasHidden, modifyRefs at 1.
  unfold bind at 1. unfold setPausedAt, modifyRefs at 1.
  rewrite stopRaf_stopped. eexists. split; [reflexivity|].
  unfold stopped. cbn [refs rafIdRef].
  destruct (rafIdRef (refs w)) eqn:E; cbn; repeat split; reflexivity.
Qed.

(** C8: after the page was hidden at [th], the listener called with the
    page visible at [tv] resets phase-start to [tv] and the progress to 0,
    clears the flag and requests a frame exactly when the session is
    active and not paused, whatever [th] and [tv] are; otherwise it changes
    nothing. *)
Theorem onVis_soft_resume (r r' : Render) (th tv : Q) (w : World) :
  exists w1 w2,
    onVis r true th w = Done tt w1
    /\ wasHiddenRef (refs w1) = true
    /\ onVis r' false tv w1 = Done tt w2
    /\ (if r_isActive r' && negb (r_isPaused r')
        then startTimeRef (refs w2) = tv
             /\ progressRef (refs w2) = 0
             /\ wasHiddenRef (refs w2) = false
             /\ pending w2 = pending w1 ++ [(nextFrameId w1, r')]
             /\ store w2 = store w
        else w2 = w1).
Proof.
  destruct (onVis_hidden r th w) as [w1 [H1 [Hh [_ [_ [_ [_ Hs]]]]]]].
  exists w1.
  destruct (r_isActive r' && negb (r_isPaused r')) eqn:E.
  - eexists. split; [exact H1|]. split; [exact Hh|].
    unfold onVis at 1. run_engine. rewrite Hh. cbn [andb]. rewrite E.
    split; [reflexivity|]. cbn. repeat split; try reflexivity. exact Hs.
  - exists w1. split; [exact H1|]. split; [exact Hh|].
    unfold onVis at 1. run_engine. rewrite Hh. cbn [andb]. rewrite E.
    split; reflexivity.
Qed.

End PauseAndVisibility.

(* ===================================================================== *)
(** ** The cycle count along a session *)
(* ===================================================================== *)

Section CycleCount.

Local Open Scope Q_scope.

Lemma countEv_app (P : Event -> bool) (l1 l2 : list Event) :
  countEv P (l1 ++ l2) = (countEv P l1 + countEv P l2)%nat.
Proof. unfold countEv. rewrite filter_app, length_app. reflexivity. Qed.

Ltac count_events :=
  unfold cyclesCounted in *;
  cbn [store events Store.setPhase Store.incrementCycle Store.togglePause
       cycleCount] in *;
  rewrite ?countEv_app;
  cbn [countEv filter isIncrement isEnterInhale List.length cueEvents app];
  lia.

Lemma stopped_counted (w : World) : cyclesCounted w -> cyclesCounted (stopped w).
Proof.
  intros H. unfold stopped. destruct (rafIdRef (refs w)); [|exact H].
  count_events.
Qed.

Lemma scheduled_counted (r : Render) (w : World) :
  cyclesCounted w -> cyclesCounted (scheduled r w).
Proof. intros H. unfold scheduled. count_events. Qed.

Lemma withProgress_counted (p : Q) (w : World) :
  cyclesCounted w -> cyclesCounted (withProgress p w).
Proof. intros H. exact H. Qed.

Lemma transitioned_counted (r : Render) (next : BreathPhase) (perfNow : Q)
    (w : World) :
  cyclesCounted w -> cyclesCounted (transitioned r next perfNow w).
Proof.
  intros H. unfold transitioned.
  destruct next; cbn [isCycleBoundary]; count_events.
Qed.

Lemma loop_counted (r : Render) (now perfNow : Q) (w : World) :
  cyclesCounted w ->
  exists w', loop r now perfNow w = Done tt w' /\ cyclesCounted w'.
Proof.
  intros H.
  destruct (isPatternValid (r_currentPattern r)) eqn:Hv.
  - destruct (Qle_bool (timing (timings (r_currentPattern r)) (r_phase r))
                (elapsedSecAt now (startTimeRef (refs w)))) eqn:Hc.
    + destruct (nextPhaseSkipZero_valid (r_phase r) _ Hv) as [next Hn].
      eexists. split; [apply (loop_cross r now perfNow w next Hv Hc Hn)|].
      apply scheduled_counted, transitioned_counted, H.
    + eexists. split; [apply (loop_stay r now perfNow w Hv Hc)|].
      apply scheduled_counted, withProgress_counted, H.
  - eexists. split; [apply (loop_invalid r now perfNow w Hv)|].
    apply stopped_counted, withProgress_counted, H.
Qed.

Lemma mainEffect_counted (r : Render) (perfNow : Q) (w : World) :
  cyclesCounted w ->
  exists w', mainEffect r perfNow w = Done tt w' /\ cyclesCounted w'.
Proof.
  intros H. unfold mainEffect.
  destruct (r_isActive r); cbn [negb];
    [destruct (r_isPaused r)|]; run_engine;
    try destruct (positive (pausedAtRef (refs w))
                  && positive (startTimeRef (refs w)));
    try destruct (rafIdRef (refs w));
    (eexists; split; [reflexivity|]); count_events.
Qed.

Lemma onVis_counted (r : Render) (hidden : bool) (perfNow : Q) (w : World) :
  cyclesCounted w ->
  exists w', onVis r hidden perfNow w = Done tt w' /\ cyclesCounted w'.
Proof.
  intros H. unfold onVis. destruct hidden; run_engine.
  - destruct (rafIdRef (refs w));
      (eexists; split; [reflexivity|]); count_events.
  - destruct (wasHiddenRef (refs w) && r_isActive r && negb (r_isPaused r));
      (eexists; split; [reflexivity|]); count_events.
Qed.

Lemma step_counted (st : EngineStep) (w : World) :
  cyclesCounted w ->
  exists w', step st w = Done tt w' /\ cyclesCounted w'.
Proof.
  intros H. destruct st as [id now pn|r now pn| |r pn|r h pn| |]; cbn [step].
  - unfold fireFrame.
    destruct (find (fun f => Nat.eqb (fst f) id) (pending w)) as [[i r]|].
    + apply loop_counted. exact H.
    + eexists. split; [reflexivity | exact H].
  - apply loop_counted, H.
  - unfold mainEffectCleanup. rewrite stopRaf_stopped.
    eexists. split; [reflexivity | apply stopped_counted, H].
  - apply mainEffect_counted, H.
  - apply onVis_counted, H.
  - eexists. split; [reflexivity | exact H].
  - eexists. split; [reflexivity | exact H].
Qed.

Lemma runSteps_counted (sts : list EngineStep) :
  forall w, cyclesCounted w ->
  exists w', runSteps sts w = Done tt w' /\ cyclesCounted w'.
Proof.
  induction sts as [|st sts IH]; intros w H.
  - exists w. split; [reflexivity | exact H].
  - destruct (step_counted st w H) as [w1 [H1 Hc1]].
    destruct (IH w1 Hc1) as [w2 [H2 Hc2]].
    exists w2. split; [|exact Hc2].
    cbn [runSteps]. unfold bind. rewrite H1. exact H2.
Qed.

Lemma enterInhale_le_setPhase (l : list Event) :
  (countEv isEnterInhale l <= countEv isSetPhase l)%nat.
Proof.
  unfold countEv. induction l as [|e l IH]; [apply Nat.le_refl|].
  destruct e as [|[]| | | |]; simpl; lia.
Qed.

(** X23: [startSession] leaves the cycle count at 0, and whatever then
    happens to the hook (frames, effect runs, visibility changes, pauses),
    no handler throws, the cycle count of the store is the number of calls
    of [setPhase] with inhale that the loop made, whether or not the
    phase of the store was inhale already, each with its one call of
    [incrementCycle]; a session in which [setPhase] was never called has
    0 cycles, and [finishSession] reports the count. A single tick adds 1
    exactly when the phase of its closure ends and the next one is
    inhale. *)
Theorem cycle_count_counts_wraps (type : BreathingType) (now0 : Z)
    (s : BreathState) (rf : EngineRefs) (pend : list (nat * Render))
    (nid : nat) (sts : list EngineStep) :
  cycleCount (store (sessionStart type now0 s rf pend nid)) = 0%Z
  /\ phase (store (sessionStart type now0 s rf pend nid)) = inhale
  /\ (exists w',
        runSteps sts (sessionStart type now0 s rf pend nid) = Done tt w'
        /\ cycleCount (store w')
           = Z.of_nat (countEv isEnterInhale (events w'))
        /\ countEv isIncrement (events w')
           = countEv isEnterInhale (events w')
        /\ (countEv isEnterInhale (events w')
            <= countEv isSetPhase (events w'))%nat
        /\ forall e,
             option_map cyclesCompleted
               (lastSessionStats (Store.finishSession e (store w')))
             = Some (Z.of_nat (countEv isEnterInhale (events w'))))
  /\ (forall r now perfNow w,
        exists w', loop r now perfNow w = Done tt w'
                   /\ cycleCount (store w')
                      = (cycleCount (store w) + wraps r now w)%Z).
Proof.
  split; [reflexivity|]. split; [reflexivity|]. split.
  - destruct (runSteps_counted sts (sessionStart type now0 s rf pend nid))
      as [w' [Hrun [Hc Hi]]].
    { split; reflexivity. }
    exists w'. split; [exact Hrun|]. split; [exact Hc|]. split; [exact Hi|].
    split; [apply enterInhale_le_setPhase|].
    intros e. cbn. rewrite Hc. reflexivity.
  - intros r now perfNow w. unfold wraps, crosses.
    destruct (isPatternValid (r_currentPattern r)) eqn:Hv; cbn [andb].
    + destruct (Qle_bool (timing (timings (r_currentPattern r)) (r_phase r))
                  (elapsedSecAt now (startTimeRef (refs w)))) eqn:Hc.
      * destruct (nextPhaseSkipZero_valid (r_phase r) _ Hv) as [next Hn].
        eexists. split; [apply (loop_cross r now perfNow w next Hv Hc Hn)|].
        rewrite Hn. destruct next; cbn; lia.
      * eexists. split; [apply (loop_stay r now perfNow w Hv Hc)|].
        cbn. lia.
    + eexists. split; [apply (loop_invalid r now perfNow w Hv)|].
      destruct (stopped_progress (withProgress 0 w)) as [_ [_ [Hs _]]].
      rewrite Hs. cbn. lia.
Qed.

End CycleCount.

(* ===================================================================== *)
(** ** Scenarios of the engine *)
(* ===================================================================== *)

Section EngineScenarios.

Local Open Scope Q_scope.
Import Sample.

Lemma nextPhaseSkipZero_cyclic_witness :
  exists n next,
    (n < 4)%nat
    /\ nextPhaseSkipZero exhale (BREATHING_PATTERNS bt_4_7_8) = inr next
    /\ next = iterNext (S n) exhale
    /\ 0 < timing (timings (BREATHING_PATTERNS bt_4_7_8)) next
    /\ forall z, In z (skipped n exhale) ->
                 ~ 0 < timing (timings (BREATHING_PATTERNS bt_4_7_8)) z.
Proof.
  apply (proj1 (nextPhaseSkipZero_cyclic exhale (BREATHING_PATTERNS bt_4_7_8))).
  exists inhale. reflexivity.
Defined.

(** With exhale the only positive phase, exhale follows exhale. *)
Example nextPhase_single_phase :
  nextPhaseSkipZero exhale (pattern 0 0 6 0) = inr exhale
  /\ nextPhaseSkipZero inhale (pattern 0 0 6 0) = inr exhale
  /\ nextPhaseSkipZero inhale (pattern 0 0 0 0) = inl InvalidPattern.
Proof. repeat split; reflexivity. Qed.

(** C6 as stated fails: in a box session the tick that ends holdOut
    calls [incrementCycle] first and [setPhase] second, so the phase
    change does not come before the cycle increment. *)
Lemma loop_order_counterexample :
  let w := running holdOut 2 in
  let r := render holdOut (BREATHING_PATTERNS bt_box) in
  exists w',
    loop r 9000 9001 w = Done tt w'
    /\ eventsSince w w'
       = [EvIncrementCycle; EvSetPhase inhale;
          EvHaptic true medium cue_inhale;
          EvPlayCue cue_inhale true musical 4 en;
          EvRequestFrame 8]
    /\ ~ phaseThenIncrementThenCue (eventsSince w w').
Proof.
  cbv zeta. eexists. split; [vm_compute; reflexivity|].
  split; [vm_compute; reflexivity|].
  intros H. destruct (H O) as [j [k [Hj [_ [Hlt _]]]]].
  - vm_compute. reflexivity.
  - inversion Hlt.
Qed.

Lemma loop_transition_order_witness :
  exists next w',
    nextPhaseSkipZero holdOut (BREATHING_PATTERNS bt_box) = inr next
    /\ loop (render holdOut (BREATHING_PATTERNS bt_box)) 9000 9001
            (running holdOut 2) = Done tt w'
    /\ phase (store w') = next
    /\ countEv isPlayCue (eventsSince (running holdOut 2) w') = 1%nat.
Proof.
  destruct (loop_transition_order
              (render holdOut (BREATHING_PATTERNS bt_box)) 9000 9001
              (running holdOut 2))
    as [next [w' [Hn [Hl [_ [Hp [Hc _]]]]]]].
  - vm_compute. reflexivity.
  - exists next, w'. repeat split; assumption.
Defined.

Lemma loop_fail_safe_and_clamp_witness :
  (exists w',
     loop (render inhale (pattern 0 0 0 0)) 9000 9001 (running inhale 0)
     = Done tt w'
     /\ progressRef (refs w') = 0
     /\ rafIdRef (refs w') = None)
  /\ (exists w',
        loop (render exhale (BREATHING_PATTERNS bt_box)) 6000 6001
             (running exhale 1) = Done tt w'
        /\ progressRef (refs w') == 1 # 4).
Proof.
  split.
  - destruct (proj1 (loop_fail_safe_and_clamp
                       (render inhale (pattern 0 0 0 0)) 9000 9001
                       (running inhale 0)))
      as [w' [Hl [Hp [Hr _]]]].
    + intros p H. destruct p; vm_compute in H; discriminate.
    + exists w'. repeat split; assumption.
  - destruct (proj1 (proj2 (proj2
                (loop_fail_safe_and_clamp
                   (render exhale (BREATHING_PATTERNS bt_box)) 6000 6001
                   (running exhale 1)))))
      as [w' [Hl Hp]].
    + exists inhale. reflexivity.
    + exists w'. split; [exact Hl|]. rewrite Hp. vm_compute. reflexivity.
Defined.

(** Negative elapsed time and a zero duration both stay inside [0, 1]. *)
Example progress_edge_cases :
  progressOf (-3) 4 = 0
  /\ progressOf 2 4 == 1 # 2
  /\ progressOf 9 4 = 1
  /\ progressOf 0 0 = 0
  /\ progressOf (-1) 0 = 0
  /\ progressOf 1 0 = 1.
Proof. vm_compute. repeat split; reflexivity. Qed.

Lemma pause_resume_no_jump_witness :
  let w := running exhale 1 in
  let rp := mkRender true true exhale (BREATHING_PATTERNS bt_box) in
  let rr := render exhale (BREATHING_PATTERNS bt_box) in
  exists w1 w2,
    (mainEffectCleanup ;; mainEffect rp 6000)%engine w = Done tt w1
    /\ mainEffect rr 90000 w1 = Done tt w2
    /\ progressRef (refs w2) = progressRef (refs w)
    /\ startTimeRef (refs w2) = startTimeRef (refs w) + (90000 - 6000).
Proof.
  cbv zeta.
  destruct (pause_resume_no_jump
              (mkRender true true exhale (BREATHING_PATTERNS bt_box))
              (render exhale (BREATHING_PATTERNS bt_box))
              6000 90000 (running exhale 1))
    as [w1 [w2 [H1 [H2 [_ [Hp [_ [_ [Hs _]]]]]]]]];
    try reflexivity.
  exists w1, w2. repeat split; assumption.
Defined.

(** A pause of 84 seconds in a 4 second phase: the tick after the resume
    sees 1.5 seconds elapsed, as the last tick before the pause would at
    the time of the pause. *)
Example pause_resume_run :
  let w := running exhale 1 in
  let rp := mkRender true true exhale (BREATHING_PATTERNS bt_box) in
  let rr := render exhale (BREATHING_PATTERNS bt_box) in
  let w2 := after (mainEffectCleanup ;; mainEffect rp 6000 ;;
                   mainEffect rr 90000 ;; loop rr 90500 90500)%engine w in
  startTimeRef (refs w2) == 89000
  /\ progressRef (refs w2) == 3 # 8
  /\ phase (store w2) = exhale.
Proof. vm_compute. repeat split; reflexivity. Qed.

(** However long the page was hidden, the soft resume starts the phase
    again. *)
Example soft_resume_run :
  let w := running exhale 1 in
  let r := render exhale (BREATHING_PATTERNS bt_box) in
  let w2 := after (onVis r true 6000 ;; onVis r false 3606000)%engine w in
  startTimeRef (refs w2) = 3606000
  /\ progressRef (refs w2) = 0
  /\ wasHiddenRef (refs w2) = false
  /\ pending w2 = [(8%nat, r)].
Proof. vm_compute. repeat split; reflexivity. Qed.

(** Visible again while paused: nothing is reset. *)
Example no_soft_resume_while_paused :
  let w := running exhale 1 in
  let rp := mkRender true true exhale (BREATHING_PATTERNS bt_box) in
  let w1 := after (onVis rp true 6000) w in
  after (onVis rp false 3606000) w1 = w1
  /\ startTimeRef (refs w1) = 5000
  /\ progressRef (refs w1) = 1 # 2.
Proof. vm_compute. repeat split; reflexivity. Qed.

(** The soft resume leaves [pausedAtRef] at the time the page was hidden:
    the effect run that follows the next phase change takes it for a pause
    and moves the new phase-start forward by the time since then. *)
Example soft_resume_keeps_pausedAt :
  let w := running exhale 1 in
  let box := BREATHING_PATTERNS bt_box in
  let r := render exhale box in
  let w2 := after (onVis r true 6000 ;; onVis r false 3606000)%engine w in
  let w3 := after (loop r 3610000 3610000 ;; mainEffectCleanup ;;
                   mainEffect (render holdOut box) 3610010)%engine w2 in
  pausedAtRef (refs w2) = 6000
  /\ phase (store w3) = holdOut
  /\ startTimeRef (refs w3) == 3610000 + (3610010 - 6000).
Proof. vm_compute. repeat split; reflexivity. Qed.

(** A session that ends within its first phase reports 0 cycles. *)
Example session_within_first_phase :
  let w0 := sessionStart bt_box t1 initialState
              (initialRefs initialSettings) [] O in
  let r := render inhale (BREATHING_PATTERNS bt_box) in
  let w := after (runSteps [StepEffect r 5000; StepFrame 0 5016 5016;
                            StepFrame 1 6000 6000; StepFrame 2 8900 8900])
             w0 in
  cycleCount (store w) = 0%Z
  /\ phase (store w) = inhale
  /\ option_map cyclesCompleted
       (lastSessionStats
          (Store.finishSession (envAt (t1 + 4000) day1 day0) (store w)))
     = Some 0%Z.
Proof. vm_compute. repeat split; reflexivity. Qed.

(** One lap of the box pattern, every tick run by the render of the phase
    the store is in: the count goes from 0 to 1 on the way into inhale. *)
Example session_one_lap :
  let w0 := sessionStart bt_box t1 initialState
              (initialRefs initialSettings) [] O in
  let box := BREATHING_PATTERNS bt_box in
  let w := after (runSteps
                    [StepEffect (render inhale box) 5000;
                     StepLoop (render inhale box) 9000 9000;
                     StepLoop (render holdIn box) 13000 13000;
                     StepLoop (render exhale box) 17000 17000;
                     StepLoop (render holdOut box) 21000 21000]) w0 in
  cycleCount (store w) = 1%Z
  /\ phase (store w) = inhale
  /\ filter isSetPhase (events w)
     = [EvSetPhase holdIn; EvSetPhase exhale; EvSetPhase holdOut;
        EvSetPhase inhale].
Proof. vm_compute. repeat split; reflexivity. Qed.

(** When the render that follows a phase change cleans the main effect up
    and runs it again, its "brand new phase start" branch plays the cue of
    the new phase a second time. *)
Example effect_rerun_cues_again :
  let w := running inhale 0 in
  let box := BREATHING_PATTERNS bt_box in
  let w1 := after (loop (render inhale box) 9000 9001) w in
  let w2 := after (mainEffectCleanup ;;
                   mainEffect (renderOf (store w1)) 9010)%engine w1 in
  filter isPlayCue (events w2)
  = [EvPlayCue cue_hold true musical 4 en;
     EvPlayCue cue_hold true musical 4 en].
Proof. vm_compute. reflexivity. Qed.

End EngineScenarios.

(* ===================================================================== *)
(** ** Where the hook departs from the intended behaviour *)
(* ===================================================================== *)

Section Departures.

Local Open Scope Q_scope.
Import Sample.

(** C5, at an input where the code breaks it. After one lap of the box
    pattern (with a pause during holdOut) the phase is inhale and the
    cycle count 1. The page is then hidden and shown: the soft resume
    requests a frame for the [loop] of the listener's render, which
    still holds phase holdOut. Each time its 4 seconds are over that
    loop calls [incrementCycle] and [setPhase] with inhale: the phase of
    the store stays inhale, no phase is entered and no lap is made, and
    the cycle count goes 1, 2, 3, 4. *)
Theorem stale_loop_counts_without_wrap :
  exists w1 w2,
    runSteps Scenario.lap Scenario.started = Done tt w1
    /\ runSteps Scenario.hiddenAndShown w1 = Done tt w2
    /\ map fst (observe Scenario.lap Scenario.started)
       = [inhale; holdIn; holdIn; holdIn; exhale; exhale; exhale;
          holdOut; holdOut; holdOut; holdOut; holdOut; holdOut; holdOut;
          holdOut; inhale; inhale; inhale]
    /\ phase (store w1) = inhale
    /\ cycleCount (store w1) = 1%Z
    /\ observe Scenario.hiddenAndShown w1
       = [(inhale, 1%Z); (inhale, 1%Z); (inhale, 2%Z); (inhale, 3%Z);
          (inhale, 4%Z)]
    /\ phase (store w2) = inhale
    /\ cycleCount (store w2) = 4%Z
    /\ option_map cyclesCompleted
         (lastSessionStats
            (Store.finishSession (envAt (t1 + 33000) day1 day0) (store w2)))
       = Some 4%Z.
Proof.
  eexists. eexists.
  split; [vm_compute; reflexivity|].
  split; [vm_compute; reflexivity|].
  vm_compute. repeat split; reflexivity.
Qed.

(** C7, at an input where the code breaks it. A session in exhale, 2 of
    its 4 seconds elapsed (progress 1/2), is paused at 7000 and resumed
    at 10000; while it is paused the page is hidden at 8000 and shown at
    9000. The hidden page overwrites [pausedAtRef] with 8000, so the
    resume moves phase-start forward by 2000 and not by the 3000 the
    pause lasted: the tick at the moment of the resume sees 3 seconds
    elapsed and computes the progress 3/4. *)
Theorem pause_hide_resume_jumps :
  exists w1 w2,
    runSteps Scenario.pausedHiddenResumed (running exhale 1) = Done tt w1
    /\ fireFrame 8 10000 10000 w1 = Done tt w2
    /\ startTimeRef (refs (running exhale 1)) = 5000
    /\ progressRef (refs (running exhale 1)) = 1 # 2
    /\ progressOf (elapsedSecAt 7000 5000) 4 == 1 # 2
    /\ progressRef (refs w1) = 1 # 2
    /\ startTimeRef (refs w1) = 5000 + (10000 - 8000)
    /\ elapsedSecAt 10000 (startTimeRef (refs w1)) == 3
    /\ progressRef (refs w2) == 3 # 4
    /\ phase (store w2) = exhale.
Proof.
  eexists. eexists.
  split; [vm_compute; reflexivity|].
  split; [vm_compute; reflexivity|].
  vm_compute. repeat split; reflexivity.
Qed.

End Departures.

(* ===================================================================== *)
(** ** More on the store and on what the app derives from it *)
(* ===================================================================== *)

Section StoreInvariants.

Local Open Scope Z_scope.

Lemma dispatch_streakSound (a : Store.Action) (s : BreathState) :
  streakSound (userSettings s) ->
  streakSound (userSettings (Store.dispatch a s)).
Proof.
  intros H. destruct a; try exact H.
  unfold streakSound in *. cbn [Store.dispatch].
  unfold Store.finishSession, Store.newStreakDate.
  cbn [userSettings Store.withStreak streak lastBreathDate].
  destruct (30 <? Store.durationSec e s); [|exact H].
  destruct (String.eqb (lastBreathDate (userSettings s)) (today e));
    [exact H|].
  destruct (String.eqb (lastBreathDate (userSettings s)) (yesterday e));
    cbn [fst snd]; right; [|lia].
  destruct H as [[H _]|H]; lia.
Qed.

Lemma run_streakSound (acts : list Store.Action) (s : BreathState) :
  streakSound (userSettings s) ->
  streakSound (userSettings (Store.run acts s)).
Proof.
  revert s; induction acts as [|a acts IH]; intros s H; [exact H|].
  apply IH, dispatch_streakSound, H.
Qed.

Lemma firstn_Forall {A} (P : A -> Prop) (n : nat) (l : list A) :
  Forall P l -> Forall P (firstn n l).
Proof.
  intros H. revert n. induction H as [|x l Hx _ IH]; intros n.
  - destruct n; constructor.
  - destruct n; constructor; [exact Hx | apply IH].
Qed.

Lemma dispatch_longEnough (a : Store.Action) (s : BreathState) :
  longEnough (history s) -> longEnough (history (Store.dispatch a s)).
Proof.
  intros H. destruct a; try exact H; [|constructor].
  cbn [Store.dispatch]. unfold Store.finishSession, Store.newHistory.
  cbn [history].
  destruct (Z.ltb_spec 10 (Store.durationSec e s)) as [Hd|Hd]; [|exact H].
  apply firstn_Forall. constructor; [exact Hd | exact H].
Qed.

Lemma run_longEnough (acts : list Store.Action) (s : BreathState) :
  longEnough (history s) -> longEnough (history (Store.run acts s)).
Proof.
  revert s; induction acts as [|a acts IH]; intros s H; [exact H|].
  apply IH, dispatch_longEnough, H.
Qed.

Lemma totalSecs_from (h : list SessionHistoryItem) (acc : Z) :
  fold_left (fun a curr => a + item_durationSec curr) h acc
  = acc + totalSecs h.
Proof.
  unfold totalSecs. revert acc.
  induction h as [|it h IH]; intros acc; cbn [fold_left]; [lia|].
  rewrite (IH (acc + item_durationSec it)), (IH (0 + item_durationSec it)).
  lia.
Qed.

Lemma totalSecs_cons (it : SessionHistoryItem) (h : list SessionHistoryItem) :
  totalSecs (it :: h) = item_durationSec it + totalSecs h.
Proof.
  unfold totalSecs at 1. cbn [fold_left]. rewrite totalSecs_from. lia.
Qed.

Lemma longEnough_totalSecs (h : list SessionHistoryItem) :
  longEnough h -> 11 * totalSessions h <= totalSecs h.
Proof.
  unfold totalSessions.
  induction 1 as [|it h Hit _ IH]; [reflexivity|].
  rewrite totalSecs_cons. cbn [List.length]. lia.
Qed.

Lemma finishSession_same_day (e : FinishEnv) (s : BreathState) :
  lastBreathDate (userSettings s) = today e ->
  userSettings (Store.finishSession e s) = userSettings s.
Proof.
  intros H. unfold Store.finishSession, Store.newStreakDate.
  cbn [userSettings]. rewrite H, String.eqb_refl. rewrite <- H.
  destruct (30 <? Store.durationSec e s); apply withStreak_same.
Qed.

(** X1: no action other than [finishSession] changes the streak or the
    last credited date: not starting or stopping a session, not the
    engine's callbacks, not any settings action. *)
Theorem streak_changed_by_finish_only (a : Store.Action) (s : BreathState) :
  match a with
  | Store.AFinishSession _ => True
  | _ =>
      streak (userSettings (Store.dispatch a s)) = streak (userSettings s)
      /\ lastBreathDate (userSettings (Store.dispatch a s))
         = lastBreathDate (userSettings s)
  end.
Proof. destruct a; try exact I; split; reflexivity. Qed.

(** X2: whatever actions the store goes through from its initial state,
    either nothing has been credited yet (streak 0, no date) or the streak
    is at least 1: it never goes negative and a credited date never goes
    with a streak of 0. *)
Theorem streak_sound_from_start (acts : list Store.Action) :
  let u := userSettings (Store.run acts initialState) in
  (streak u = 0 /\ lastBreathDate u = ""%string) \/ 1 <= streak u.
Proof.
  cbv zeta. apply (run_streakSound acts initialState).
  left. split; reflexivity.
Qed.

(** X3: a session of more than 30 seconds leaves today as the last
    credited date, and the streak is credited at most once a day: a
    further session finished on the same day, however long, leaves streak
    and date as they are. *)
Theorem streak_once_a_day (e1 e2 : FinishEnv) (s : BreathState)
    (type : BreathingType) (now : Z) :
  30 < Store.durationSec e1 s ->
  today e2 = today e1 ->
  let s1 := Store.finishSession e1 s in
  let s2 := Store.finishSession e2 (Store.startSession type now s1) in
  lastBreathDate (userSettings s1) = today e1
  /\ streak (userSettings s2) = streak (userSettings s1)
  /\ lastBreathDate (userSettings s2) = lastBreathDate (userSettings s1).
Proof.
  intros Hd Ht. cbv zeta.
  assert (H1 : lastBreathDate (userSettings (Store.finishSession e1 s))
               = today e1).
  { unfold Store.finishSession, Store.newStreakDate.
    cbn [userSettings Store.withStreak lastBreathDate].
    rewrite (proj2 (Z.ltb_lt _ _) Hd).
    destruct (String.eqb_spec (lastBreathDate (userSettings s)) (today e1))
      as [E|E]; [exact E|].
    destruct (String.eqb (lastBreathDate (userSettings s)) (yesterday e1));
      reflexivity. }
  split; [exact H1|].
  assert (Hu : userSettings
                 (Store.finishSession e2
                    (Store.startSession type now (Store.finishSession e1 s)))
               = userSettings (Store.finishSession e1 s)).
  { rewrite finishSession_same_day; [reflexivity|].
    change (userSettings
              (Store.startSession type now (Store.finishSession e1 s)))
      with (userSettings (Store.finishSession e1 s)).
    rewrite H1. symmetry. exact Ht. }
  rewrite Hu. split; reflexivity.
Qed.

(** X4: every item a store started from its initial state ever holds in
    its history is of a session of more than 10 seconds. *)
Theorem history_holds_long_sessions (acts : list Store.Action) :
  Forall (fun it => 10 < item_durationSec it)
         (history (Store.run acts initialState)).
Proof. apply (run_longEnough acts initialState). constructor. Qed.

(** X5: the totals the app shows for such a history: at most 100
    sessions, at least 11 seconds for each of them, so that neither the
    seconds nor the minutes are ever negative. *)
Theorem historyStats_bounds (acts : list Store.Action) :
  let h := history (Store.run acts initialState) in
  0 <= totalSessions h <= 100
  /\ 11 * totalSessions h <= totalSecs h
  /\ 0 <= totalMins h
  /\ 60 * totalMins h <= totalSecs h < 60 * totalMins h + 60.
Proof.
  cbv zeta.
  pose proof (run_longEnough acts initialState (Forall_nil _)) as Hl.
  pose proof (run_length_le acts initialState (Nat.le_0_l _)) as Hn.
  pose proof (longEnough_totalSecs _ Hl) as Hs.
  unfold totalSessions in *. unfold totalMins.
  pose proof (Z.div_mod (totalSecs (history (Store.run acts initialState)))
                60 ltac:(lia)) as Hdm.
  pose proof (Z.mod_pos_bound
                (totalSecs (history (Store.run acts initialState)))
                60 ltac:(lia)) as Hb.
  assert (0 <= totalSecs (history (Store.run acts initialState))) by lia.
  assert (0 <= totalSecs (history (Store.run acts initialState)) / 60)
    by (apply Z.div_pos; lia).
  repeat split; lia.
Qed.

Lemma summarySeconds_two_digits :
  forallb (fun n => Nat.eqb (String.length
                               (summarySeconds (Z.of_nat n))) 2)
          (seq 0 60) = true.
Proof. vm_compute. reflexivity. Qed.

(** X6: for a duration that is not negative the two numbers shown are
    the minutes and seconds of the duration, the seconds below 60 and, in
    the summary, written with two digits. *)
Theorem shown_duration (durationSec : Z) :
  0 <= durationSec ->
  60 * shownMinutes durationSec + shownSeconds durationSec = durationSec
  /\ 0 <= shownSeconds durationSec < 60
  /\ String.length (summarySeconds durationSec) = 2%nat.
Proof.
  intros Hd. unfold shownMinutes.
  assert (Hrem : shownSeconds durationSec = durationSec mod 60)
    by (unfold shownSeconds; apply Z.rem_mod_nonneg; lia).
  pose proof (Z.div_mod durationSec 60 ltac:(lia)) as Hdm.
  pose proof (Z.mod_pos_bound durationSec 60 ltac:(lia)) as Hb.
  split; [lia|]. split; [lia|].
  unfold summarySeconds at 1.
  pose proof (proj1 (forallb_forall _ _) summarySeconds_two_digits
                (Z.to_nat (shownSeconds durationSec))) as Hall.
  cbv beta in Hall. unfold summarySeconds at 1 in Hall.
  assert (Hs : shownSeconds (Z.of_nat (Z.to_nat (shownSeconds durationSec)))
               = shownSeconds durationSec).
  { rewrite Z2Nat.id by lia. unfold shownSeconds at 1.
    rewrite Hrem. apply Z.rem_small. lia. }
  rewrite Hs in Hall. apply Nat.eqb_eq, Hall.
  apply in_seq. lia.
Qed.

End StoreInvariants.

(* ===================================================================== *)
(** ** More on the engine *)
(* ===================================================================== *)

Section EngineInvariants.

Local Open Scope Q_scope.

Lemma wellCued_nil : wellCued [].
Proof. split; [reflexivity | constructor]. Qed.

Lemma wellCued_app (l1 l2 : list Event) :
  wellCued l1 -> wellCued l2 -> wellCued (l1 ++ l2).
Proof.
  intros [H1 F1] [H2 F2]. split.
  - rewrite !countEv_app. lia.
  - apply Forall_app. split; assumption.
Qed.

Lemma wellCued_quiet (e : Event) :
  cueOf e = None -> wellCued [e].
Proof.
  intros H. split.
  - destruct e; try discriminate; reflexivity.
  - constructor; [rewrite H; discriminate | constructor].
Qed.

Lemma wellCued_cue (st : UserSettings) (p : BreathPhase) (d : Q) :
  wellCued (cueEvents st p d).
Proof.
  split; [reflexivity|].
  repeat constructor; destruct p; discriminate.
Qed.

Lemma handled_refl (w : World) : handled w w.
Proof.
  split; [exists []; split; [symmetry; apply app_nil_r | apply wellCued_nil]|].
  split; [tauto|]. split; [repeat split | lia].
Qed.

Lemma handled_trans (w1 w2 w3 : World) :
  handled w1 w2 -> handled w2 w3 -> handled w1 w3.
Proof.
  intros [[n1 [E1 C1]] [P1 [S1 M1]]] [[n2 [E2 C2]] [P2 [S2 M2]]].
  split; [|split; [tauto|split]].
  - exists (n1 ++ n2). split; [|apply wellCued_app; assumption].
    rewrite E2, E1, app_assoc. reflexivity.
  - destruct S1 as [A1 [B1 [D1 [F1 [G1 H1]]]]].
    destruct S2 as [A2 [B2 [D2 [F2 [G2 H2]]]]].
    repeat split; congruence.
  - lia.
Qed.

Lemma handled_stopped (w : World) : handled w (stopped w).
Proof.
  unfold stopped. destruct (rafIdRef (refs w)); [|apply handled_refl].
  split; [eexists; split; [reflexivity | apply wellCued_quiet; reflexivity]|].
  split; [intros H; exact H|]. split; [repeat split | cbn; lia].
Qed.

Lemma handled_scheduled (r : Render) (w : World) : handled w (scheduled r w).
Proof.
  split; [eexists; split; [reflexivity | apply wellCued_quiet; reflexivity]|].
  split; [intros H; exact H|]. split; [repeat split | cbn; lia].
Qed.

Lemma handled_refs (w : World) (rf : EngineRefs) :
  0 <= progressRef rf <= 1 ->
  handled w (mkWorld (store w) rf (pending w) (nextFrameId w) (events w)).
Proof.
  intros H.
  split; [exists []; split; [symmetry; apply app_nil_r | apply wellCued_nil]|].
  split; [intros _; exact H|]. split; [repeat split | cbn; lia].
Qed.

Lemma handled_refs_keep (w : World) (rf : EngineRefs) :
  progressRef rf = progressRef (refs w) ->
  handled w (mkWorld (store w) rf (pending w) (nextFrameId w) (events w)).
Proof.
  intros H.
  split; [exists []; split; [symmetry; apply app_nil_r | apply wellCued_nil]|].
  split; [unfold progressInRange; cbn [refs]; rewrite H; tauto|].
  split; [repeat split | cbn; lia].
Qed.

Lemma zero_in_range : 0 <= 0 <= 1.
Proof. split; discriminate. Qed.

Lemma handled_cued (w : World) (p : BreathPhase) (d : Q) (rf : EngineRefs) :
  0 <= progressRef rf <= 1 ->
  handled w (mkWorld (store w) rf (pending w) (nextFrameId w)
               (events w ++ cueEvents (settingsRef (refs w)) p d)).
Proof.
  intros H.
  split; [eexists; split; [reflexivity | apply wellCued_cue]|].
  split; [intros _; exact H|]. split; [repeat split | cbn; lia].
Qed.

Lemma handled_transitioned (r : Render) (next : BreathPhase) (perfNow : Q)
    (w : World) :
  handled w (transitioned r next perfNow w).
Proof.
  unfold transitioned. split; [|split; [|split]].
  - eexists. split; [reflexivity|].
    apply wellCued_app; [|apply wellCued_app].
    + destruct (isCycleBoundary next);
        [apply wellCued_quiet; reflexivity | apply wellCued_nil].
    + apply wellCued_quiet; reflexivity.
    + apply wellCued_cue.
  - intros _. apply zero_in_range.
  - destruct (isCycleBoundary next); repeat split.
  - destruct (isCycleBoundary next); cbn; lia.
Qed.

Lemma handled_loop (r : Render) (now perfNow : Q) (w : World) :
  exists w', loop r now perfNow w = Done tt w' /\ handled w w'.
Proof.
  destruct (isPatternValid (r_currentPattern r)) eqn:Hv.
  - destruct (Qle_bool (timing (timings (r_currentPattern r)) (r_phase r))
                (elapsedSecAt now (startTimeRef (refs w)))) eqn:Hc.
    + destruct (nextPhaseSkipZero_valid (r_phase r) _ Hv) as [next Hn].
      eexists. split; [apply (loop_cross r now perfNow w next Hv Hc Hn)|].
      eapply handled_trans;
        [apply handled_transitioned | apply handled_scheduled].
    + eexists. split; [apply (loop_stay r now perfNow w Hv Hc)|].
      eapply handled_trans; [|apply handled_scheduled].
      apply handled_refs. apply progressOf_bounds.
  - eexists. split; [apply (loop_invalid r now perfNow w Hv)|].
    eapply handled_trans; [|apply handled_stopped].
    apply handled_refs. apply zero_in_range.
Qed.

Lemma loop_keeps_isPaused (r : Render) (now perfNow : Q) (w w' : World) :
  loop r now perfNow w = Done tt w' ->
  isPaused (store w') = isPaused (store w).
Proof.
  intros Hl.
  destruct (isPatternValid (r_currentPattern r)) eqn:Hv.
  - destruct (Qle_bool (timing (timings (r_currentPattern r)) (r_phase r))
                (elapsedSecAt now (startTimeRef (refs w)))) eqn:Hc.
    + destruct (nextPhaseSkipZero_valid (r_phase r) _ Hv) as [next Hn].
      rewrite (loop_cross r now perfNow w next Hv Hc Hn) in Hl.
      injection Hl as <-. cbn.
      destruct (isCycleBoundary next); reflexivity.
    + rewrite (loop_stay r now perfNow w Hv Hc) in Hl.
      injection Hl as <-. reflexivity.
  - rewrite (loop_invalid r now perfNow w Hv) in Hl. injection Hl as <-.
    unfold stopped, withProgress. cbn [refs rafIdRef].
    destruct (rafIdRef (refs w)); reflexivity.
Qed.

(** The main effect, branch by branch. *)
Lemma mainEffect_inactive (r : Render) (perfNow : Q) (w : World) :
  r_isActive r = false ->
  mainEffect r perfNow w
  = Done tt
      (mkWorld (store (stopped w))
         (mkRefs (settingsRef (refs w)) 0 0 None
                 (wasHiddenRef (refs w)) 0)
         (pending (stopped w)) (nextFrameId w) (events (stopped w))).
Proof.
  intros Ha. unfold mainEffect. rewrite Ha. cbn [negb].
  unfold bind at 1. rewrite stopRaf_stopped. unfold stopped.
  destruct (rafIdRef (refs w)) eqn:E; run_engine; rewrite ?E; reflexivity.
Qed.

Lemma mainEffect_paused (r : Render) (perfNow : Q) (w : World) :
  r_isActive r = true -> r_isPaused r = true ->
  mainEffect r perfNow w
  = Done tt
      (stopped
         (mkWorld (store w)
            (mkRefs (settingsRef (refs w)) (startTimeRef (refs w)) perfNow
                    (rafIdRef (refs w)) (wasHiddenRef (refs w))
                    (progressRef (refs w)))
            (pending w) (nextFrameId w) (events w))).
Proof.
  intros Ha Hp. unfold mainEffect. rewrite Ha, Hp. cbn [negb].
  unfold bind at 1. unfold setPausedAt, modifyRefs.
  apply stopRaf_stopped.
Qed.

Lemma mainEffect_resumed (r : Render) (perfNow : Q) (w : World) :
  r_isActive r = true -> r_isPaused r = false ->
  positive (pausedAtRef (refs w)) && positive (startTimeRef (refs w)) = true ->
  mainEffect r perfNow w
  = Done tt
      (scheduled r
         (mkWorld (store w)
            (mkRefs (settingsRef (refs w))
                    (startTimeRef (refs w) + (perfNow - pausedAtRef (refs w)))
                    0 (rafIdRef (refs w)) (wasHiddenRef (refs w))
                    (progressRef (refs w)))
            (pending w) (nextFrameId w) (events w))).
Proof.
  intros Ha Hp Hpos. unfold mainEffect. rewrite Ha, Hp. run_engine.
  rewrite Hpos. reflexivity.
Qed.

Lemma mainEffect_fresh (r : Render) (perfNow : Q) (w : World) :
  r_isActive r = true -> r_isPaused r = false ->
  positive (pausedAtRef (refs w)) && positive (startTimeRef (refs w)) = false ->
  mainEffect r perfNow w
  = Done tt
      (scheduled r
         (mkWorld (store w)
            (mkRefs (settingsRef (refs w)) perfNow (pausedAtRef (refs w))
                    (rafIdRef (refs w)) (wasHiddenRef (refs w)) 0)
            (pending w) (nextFrameId w)
            (events w
             ++ cueEvents (settingsRef (refs w)) (r_phase r)
                  (timing (timings (r_currentPattern r)) (r_phase r))))).
Proof.
  intros Ha Hp Hpos. unfold mainEffect. rewrite Ha, Hp. run_engine.
  rewrite Hpos. unfold scheduled, cueEvents.
  cbn [store refs pending nextFrameId events settingsRef startTimeRef
       pausedAtRef rafIdRef wasHiddenRef progressRef].
  rewrite <- !app_assoc. reflexivity.
Qed.

Lemma handled_mainEffect (r : Render) (perfNow : Q) (w : World) :
  exists w', mainEffect r perfNow w = Done tt w' /\ handled w w'.
Proof.
  destruct (r_isActive r) eqn:Ha; [destruct (r_isPaused r) eqn:Hp|].
  - eexists. split; [apply (mainEffect_paused r perfNow w Ha Hp)|].
    eapply handled_trans; [|apply handled_stopped].
    apply handled_refs_keep. reflexivity.
  - destruct (positive (pausedAtRef (refs w))
              && positive (startTimeRef (refs w))) eqn:Hpos.
    + eexists. split; [apply (mainEffect_resumed r perfNow w Ha Hp Hpos)|].
      eapply handled_trans; [|apply handled_scheduled].
      apply handled_refs_keep. reflexivity.
    + eexists. split; [apply (mainEffect_fresh r perfNow w Ha Hp Hpos)|].
      eapply handled_trans; [|apply handled_scheduled].
      apply handled_cued. apply zero_in_range.
  - eexists. split; [apply (mainEffect_inactive r perfNow w Ha)|].
    eapply handled_trans; [apply handled_stopped|].
    apply (handled_refs (stopped w)). apply zero_in_range.
Qed.

Lemma onVis_visible (r : Render) (perfNow : Q) (w : World) :
  onVis r false perfNow w
  = Done tt
      (if wasHiddenRef (refs w) && r_isActive r && negb (r_isPaused r)
       then scheduled r
              (mkWorld (store w)
                 (mkRefs (settingsRef (refs w)) perfNow
                         (pausedAtRef (refs w)) (rafIdRef (refs w)) false 0)
                 (pending w) (nextFrameId w) (events w))
       else w).
Proof.
  unfold onVis. run_engine.
  destruct (wasHiddenRef (refs w) && r_isActive r && negb (r_isPaused r));
    reflexivity.
Qed.

Lemma onVis_hidden_world (r : Render) (perfNow : Q) (w : World) :
  onVis r true perfNow w
  = Done tt
      (stopped
         (mkWorld (store w)
            (mkRefs (settingsRef (refs w)) (startTimeRef (refs w)) perfNow
                    (rafIdRef (refs w)) true (progressRef (refs w)))
            (pending w) (nextFrameId w) (events w))).
Proof.
  unfold onVis. unfold bind at 1. unfold setWasHidden, modifyRefs at 1.
  unfold bind at 1. unfold setPausedAt, modifyRefs at 1.
  apply stopRaf_stopped.
Qed.

Lemma handled_onVis (r : Render) (hidden : bool) (perfNow : Q) (w : World) :
  exists w', onVis r hidden perfNow w = Done tt w' /\ handled w w'.
Proof.
  destruct hidden.
  - eexists. split; [apply onVis_hidden_world|].
    eapply handled_trans; [|apply handled_stopped].
    apply handled_refs_keep. reflexivity.
  - eexists. split; [apply onVis_visible|].
    destruct (wasHiddenRef (refs w) && r_isActive r && negb (r_isPaused r));
      [|apply handled_refl].
    eapply handled_trans; [|apply handled_scheduled].
    apply handled_refs. apply zero_in_range.
Qed.

Lemma handled_step (st : EngineStep) (w : World) :
  exists w', step st w = Done tt w'
    /\ (exists new, events w' = events w ++ new /\ wellCued new)
    /\ (progressInRange w -> progressInRange w')
    /\ (cycleCount (store w) <= cycleCount (store w'))%Z
    /\ sameSession (store w) (store w')
    /\ isPaused (store w')
       = match st with
         | StepTogglePause => negb (isPaused (store w))
         | _ => isPaused (store w)
         end.
Proof.
  assert (Hgen : forall m : M unit,
            (exists w', m w = Done tt w' /\ handled w w'
                        /\ isPaused (store w') = isPaused (store w)) ->
            exists w', m w = Done tt w'
              /\ (exists new, events w' = events w ++ new /\ wellCued new)
              /\ (progressInRange w -> progressInRange w')
              /\ (cycleCount (store w) <= cycleCount (store w'))%Z
              /\ sameSession (store w) (store w')
              /\ isPaused (store w') = isPaused (store w)).
  { intros m [w' [Hm [[He [Hp [Hs Hc]]] Hpa]]]. exists w'. tauto. }
  destruct st as [id now pn|r now pn| |r pn|r h pn| |]; cbn [step].
  - apply Hgen. unfold fireFrame.
    destruct (find (fun f => Nat.eqb (fst f) id) (pending w)) as [[i r]|].
    + destruct (handled_loop r now pn
                  (mkWorld (store w) (refs w)
                     (filter (fun f => negb (Nat.eqb (fst f) id)) (pending w))
                     (nextFrameId w) (events w)))
        as [w' [Hl Hh]].
      exists w'. split; [exact Hl|]. split; [exact Hh|].
      apply (loop_keeps_isPaused _ _ _ _ _ Hl).
    + exists w. split; [reflexivity|]. split; [apply handled_refl|].
      reflexivity.
  - apply Hgen.
    destruct (handled_loop r now pn w) as [w' [Hl Hh]].
    exists w'. split; [exact Hl|]. split; [exact Hh|].
    apply (loop_keeps_isPaused _ _ _ _ _ Hl).
  - apply Hgen. unfold mainEffectCleanup. rewrite stopRaf_stopped.
    eexists. split; [reflexivity|]. split; [apply handled_stopped|].
    unfold stopped. destruct (rafIdRef (refs w)); reflexivity.
  - apply Hgen.
    destruct (handled_mainEffect r pn w) as [w' [Hm Hh]].
    exists w'. split; [exact Hm|]. split; [exact Hh|].
    revert Hm. clear. intros Hm.
    destruct (r_isActive r) eqn:Ha; [destruct (r_isPaused r) eqn:Hp|].
    + rewrite (mainEffect_paused r pn w Ha Hp) in Hm. injection Hm as <-.
      unfold stopped. cbn [refs rafIdRef].
      destruct (rafIdRef (refs w)); reflexivity.
    + destruct (positive (pausedAtRef (refs w))
                && positive (startTimeRef (refs w))) eqn:Hpos.
      * rewrite (mainEffect_resumed r pn w Ha Hp Hpos) in Hm.
        injection Hm as <-. reflexivity.
      * rewrite (mainEffect_fresh r pn w Ha Hp Hpos) in Hm.
        injection Hm as <-. reflexivity.
    + rewrite (mainEffect_inactive r pn w Ha) in Hm. injection Hm as <-.
      unfold stopped. destruct (rafIdRef (refs w)); reflexivity.
  - apply Hgen.
    destruct (handled_onVis r h pn w) as [w' [Hm Hh]].
    exists w'. split; [exact Hm|]. split; [exact Hh|].
    revert Hm. clear. intros Hm. destruct h.
    + rewrite onVis_hidden_world in Hm. injection Hm as <-.
      unfold stopped. cbn [refs rafIdRef].
      destruct (rafIdRef (refs w)); reflexivity.
    + rewrite onVis_visible in Hm. injection Hm as <-.
      destruct (wasHiddenRef (refs w) && r_isActive r && negb (r_isPaused r));
        reflexivity.
  - apply Hgen. eexists. split; [reflexivity|].
    split; [|reflexivity]. apply handled_refs_keep. reflexivity.
  - eexists. split; [reflexivity|].
    split; [exists []; split; [symmetry; apply app_nil_r|apply wellCued_nil]|].
    split; [intros H; exact H|]. split; [cbn; lia|].
    split; [repeat split | reflexivity].
Qed.

Lemma handled_runSteps (sts : list EngineStep) :
  forall w, exists w', runSteps sts w = Done tt w' /\ handled w w'.
Proof.
  induction sts as [|st sts IH]; intros w.
  - exists w. split; [reflexivity | apply handled_refl].
  - destruct (handled_step st w) as [w1 [H1 [He [Hp [Hc [Hs _]]]]]].
    destruct (IH w1) as [w2 [H2 Hh2]].
    exists w2. split; [cbn [runSteps]; unfold bind; rewrite H1; exact H2|].
    eapply handled_trans; [|exact Hh2].
    split; [exact He|]. split; [exact Hp|]. split; [exact Hs | exact Hc].
Qed.

End EngineInvariants.

Section EngineProperties.

Local Open Scope Q_scope.

(** X7: once the progress fraction is between 0 and 1 it stays there
    whatever happens to the hook: frames, runs and cleanups of the main
    effect, visibility changes, settings updates, pauses. *)
Theorem progress_stays_in_range (sts : list EngineStep) (w : World) :
  0 <= progressRef (refs w) <= 1 ->
  exists w',
    runSteps sts w = Done tt w' /\ 0 <= progressRef (refs w') <= 1.
Proof.
  intros H. destruct (handled_runSteps sts w) as [w' [Hr [_ [Hp _]]]].
  exists w'. split; [exact Hr | exact (Hp H)].
Qed.

(** X8: of the store the hook only ever writes the phase and the cycle
    count, and the pause flag only when the user toggles it: no handler
    starts or ends the session, changes the pattern, the start time or
    the summary, or touches what is persisted (settings, onboarding
    flag, history). *)
Theorem engine_writes_phase_and_cycles_only :
  (forall sts w, exists w',
      runSteps sts w = Done tt w'
      /\ isActive (store w') = isActive (store w)
      /\ currentPattern (store w') = currentPattern (store w)
      /\ sessionStartTime (store w') = sessionStartTime (store w)
      /\ showSummary (store w') = showSummary (store w)
      /\ lastSessionStats (store w') = lastSessionStats (store w)
      /\ partialize (store w') = partialize (store w))
  /\ (forall st w, exists w',
        step st w = Done tt w'
        /\ isPaused (store w')
           = match st with
             | StepTogglePause => negb (isPaused (store w))
             | _ => isPaused (store w)
             end).
Proof.
  split.
  - intros sts w. destruct (handled_runSteps sts w) as [w' [Hr [_ [_ [Hs _]]]]].
    exists w'. split; [exact Hr | exact Hs].
  - intros st w. destruct (handled_step st w) as [w' [Hs [_ [_ [_ [_ Hp]]]]]].
    exists w'. split; [exact Hs | exact Hp].
Qed.

(** X9: the cycle count never goes down while the hook runs. *)
Theorem cycle_count_never_decreases (sts : list EngineStep) (w : World) :
  exists w',
    runSteps sts w = Done tt w'
    /\ (cycleCount (store w) <= cycleCount (store w'))%Z.
Proof.
  destruct (handled_runSteps sts w) as [w' [Hr [_ [_ [_ Hc]]]]].
  exists w'. split; [exact Hr | exact Hc].
Qed.

(** X10: the hook calls the haptic service as often as the sound service,
    and no cue it sends to either is the finish cue. *)
Theorem cues_come_in_pairs (sts : list EngineStep) (w : World) :
  exists w',
    runSteps sts w = Done tt w'
    /\ countEv isHaptic (eventsSince w w')
       = countEv isPlayCue (eventsSince w w')
    /\ Forall (fun e => cueOf e <> Some cue_finish) (eventsSince w w').
Proof.
  destruct (handled_runSteps sts w) as [w' [Hr [[new [He Hc]] _]]].
  exists w'. split; [exact Hr|].
  rewrite (eventsSince_app w w' new He). exact Hc.
Qed.

Lemma find_filtered (id : nat) (l : list (nat * Render)) :
  find (fun f => Nat.eqb (fst f) id)
       (filter (fun f => negb (Nat.eqb (fst f) id)) l) = None.
Proof.
  induction l as [|f l IH]; [reflexivity|]. cbn [filter].
  destruct (Nat.eqb (fst f) id) eqn:E; cbn [negb]; [exact IH|].
  cbn [find]. rewrite E. exact IH.
Qed.

Lemma stopped_cancels (id : nat) (w : World) :
  rafIdRef (refs w) = Some id ->
  rafIdRef (refs (stopped w)) = None
  /\ find (fun f => Nat.eqb (fst f) id) (pending (stopped w)) = None.
Proof.
  intros H. unfold stopped. rewrite H. cbn. split; [reflexivity|].
  apply find_filtered.
Qed.

Lemma stopped_idle (w : World) :
  rafIdRef (refs w) = None -> stopped w = w.
Proof. intros H. unfold stopped. rewrite H. reflexivity. Qed.

Lemma fireFrame_cancelled (id : nat) (now perfNow : Q) (w : World) :
  find (fun f => Nat.eqb (fst f) id) (pending w) = None ->
  fireFrame id now perfNow w = Done tt w.
Proof. intros H. unfold fireFrame. rewrite H. reflexivity. Qed.

(** X11: a pause, a hidden page and the end of the session each cancel
    the frame the hook has requested: afterwards [rafIdRef] is empty and
    the frame, should the browser still come to it, runs no tick. *)
Theorem halting_cancels_the_frame (id : nat) (w : World)
    (rp r0 rv : Render) (t now perfNow : Q) :
  rafIdRef (refs w) = Some id ->
  r_isActive rp = true -> r_isPaused rp = true ->
  r_isActive r0 = false ->
  (exists w1,
     (mainEffectCleanup ;; mainEffect rp t)%engine w = Done tt w1
     /\ rafIdRef (refs w1) = None
     /\ fireFrame id now perfNow w1 = Done tt w1)
  /\ (exists w1,
        (mainEffectCleanup ;; mainEffect r0 t)%engine w = Done tt w1
        /\ rafIdRef (refs w1) = None
        /\ fireFrame id now perfNow w1 = Done tt w1)
  /\ (exists w1,
        onVis rv true t w = Done tt w1
        /\ rafIdRef (refs w1) = None
        /\ fireFrame id now perfNow w1 = Done tt w1).
Proof.
  intros Hid Hap Hpp Ha0.
  destruct (stopped_cancels id w Hid) as [Hnone Hfind].
  split; [|split].
  - unfold mainEffectCleanup, bind. rewrite stopRaf_stopped.
    rewrite (mainEffect_paused rp t (stopped w) Hap Hpp).
    rewrite stopped_idle by exact Hnone.
    eexists. split; [reflexivity|]. split; [exact Hnone|].
    apply fireFrame_cancelled. exact Hfind.
  - unfold mainEffectCleanup, bind. rewrite stopRaf_stopped.
    rewrite (mainEffect_inactive r0 t (stopped w) Ha0).
    rewrite (stopped_idle (stopped w)) by exact Hnone.
    eexists. split; [reflexivity|]. split; [reflexivity|].
    apply fireFrame_cancelled. exact Hfind.
  - rewrite onVis_hidden_world.
    eexists. split; [reflexivity|].
    unfold stopped. cbn [refs rafIdRef]. rewrite Hid. cbn.
    split; [reflexivity|].
    apply fireFrame_cancelled. apply find_filtered.
Qed.

(** X12: when the main effect has run for an inactive render, its next
    run for a running one starts the phase anew whatever the refs held
    before: phase-start is the current time, the progress is 0, the cue
    of the render's phase is sent with the duration of that phase, and
    one frame is requested. *)
Theorem start_after_stop_is_fresh (r0 r : Render) (t0 t1 : Q) (w : World) :
  r_isActive r0 = false ->
  r_isActive r = true -> r_isPaused r = false ->
  exists w1 w2,
    mainEffect r0 t0 w = Done tt w1
    /\ mainEffect r t1 w1 = Done tt w2
    /\ startTimeRef (refs w1) = 0 /\ pausedAtRef (refs w1) = 0
    /\ progressRef (refs w1) = 0 /\ rafIdRef (refs w1) = None
    /\ startTimeRef (refs w2) = t1
    /\ progressRef (refs w2) = 0
    /\ rafIdRef (refs w2) = Some (nextFrameId w)
    /\ eventsSince w1 w2
       = cueEvents (settingsRef (refs w)) (r_phase r)
           (timing (timings (r_currentPattern r)) (r_phase r))
         ++ [EvRequestFrame (nextFrameId w)].
Proof.
  intros Ha0 Ha Hp.
  rewrite (mainEffect_inactive r0 t0 w Ha0).
  eexists. eexists. split; [reflexivity|].
  rewrite mainEffect_fresh by (try assumption; reflexivity).
  split; [reflexivity|].
  cbn [refs startTimeRef pausedAtRef progressRef rafIdRef scheduled
       nextFrameId settingsRef].
  repeat split; try reflexivity.
  apply eventsSince_app.
  unfold scheduled. cbn [events settingsRef refs nextFrameId].
  rewrite <- app_assoc. reflexivity.
Qed.

End EngineProperties.

Section EngineCompositions.

Local Open Scope Q_scope.

Lemma stopped_refs (w : World) :
  settingsRef (refs (stopped w)) = settingsRef (refs w)
  /\ startTimeRef (refs (stopped w)) = startTimeRef (refs w)
  /\ pausedAtRef (refs (stopped w)) = pausedAtRef (refs w)
  /\ wasHiddenRef (refs (stopped w)) = wasHiddenRef (refs w)
  /\ progressRef (refs (stopped w)) = progressRef (refs w)
  /\ store (stopped w) = store w
  /\ nextFrameId (stopped w) = nextFrameId w.
Proof.
  unfold stopped. destruct (rafIdRef (refs w)); repeat split; reflexivity.
Qed.

Lemma stopped_events (w : World) :
  events (stopped w)
  = events w ++ match rafIdRef (refs w) with
                | Some id => [EvCancelFrame id]
                | None => []
                end.
Proof.
  unfold stopped. destruct (rafIdRef (refs w)); cbn [events];
    [reflexivity | symmetry; apply app_nil_r].
Qed.

(** X13: the settings effect puts the store's settings in [settingsRef],
    and the cue of the next phase change is sent with exactly these
    settings, whatever the ref held before. *)
Theorem next_cue_uses_current_settings (r : Render) (now perfNow : Q)
    (w : World) :
  crosses r now w = true ->
  exists next w1 w2,
    step StepSettings w = Done tt w1
    /\ loop r now perfNow w1 = Done tt w2
    /\ nextPhaseSkipZero (r_phase r) (r_currentPattern r) = inr next
    /\ filter (fun e => isHaptic e || isPlayCue e) (eventsSince w1 w2)
       = cueEvents (userSettings (store w)) next
           (timing (timings (r_currentPattern r)) next).
Proof.
  unfold crosses. intros H. apply andb_true_iff in H as [Hv Hc].
  destruct (nextPhaseSkipZero_valid (r_phase r) _ Hv) as [next Hn].
  exists next. eexists. eexists. split; [reflexivity|].
  split; [refine (loop_cross r now perfNow _ next Hv _ Hn); exact Hc|].
  split; [exact Hn|].
  erewrite eventsSince_app
    by (unfold scheduled, transitioned; cbn [events nextFrameId];
        rewrite <- !app_assoc; reflexivity).
  cbn [refs settingsRef].
  destruct (isCycleBoundary next); reflexivity.
Qed.

(** X14: the soft resume leaves [pausedAtRef] at the time the page was
    hidden. When the tick it scheduled ends the phase and the main effect
    is cleaned up and run again for the new phase, the effect takes its
    resume branch: the new phase-start is not the time of the phase change
    [perfNow] but later by the time since the page was hidden, and the
    effect sends no cue. *)
Theorem soft_resume_delays_next_phase (r rv r2 : Render)
    (th tv now perfNow t : Q) (w : World) :
  r_isActive rv = true -> r_isPaused rv = false ->
  r_isActive r2 = true -> r_isPaused r2 = false ->
  isPatternValid (r_currentPattern rv) = true ->
  Qle_bool (timing (timings (r_currentPattern rv)) (r_phase rv))
           (elapsedSecAt now tv) = true ->
  0 < th -> 0 < perfNow ->
  exists w2 w3,
    (onVis r true th ;; onVis rv false tv)%engine w = Done tt w2
    /\ startTimeRef (refs w2) = tv
    /\ pausedAtRef (refs w2) = th
    /\ (loop rv now perfNow ;; mainEffectCleanup ;; mainEffect r2 t)%engine w2
       = Done tt w3
    /\ startTimeRef (refs w3) = perfNow + (t - th)
    /\ pausedAtRef (refs w3) = 0
    /\ countEv isPlayCue (eventsSince w2 w3) = 1%nat.
Proof.
  intros Hav Hpv Ha2 Hp2 Hv Hc Hth Hpn.
  apply positive_true in Hth. apply positive_true in Hpn.
  destruct (nextPhaseSkipZero_valid (r_phase rv) _ Hv) as [next Hn].
  unfold bind at 1. rewrite onVis_hidden_world.
  match goal with |- context [onVis rv false tv ?x] => set (wA := x) end.
  assert (HA : pausedAtRef (refs wA) = th /\ wasHiddenRef (refs wA) = true).
  { destruct (stopped_refs
                (mkWorld (store w)
                   (mkRefs (settingsRef (refs w)) (startTimeRef (refs w)) th
                           (rafIdRef (refs w)) true (progressRef (refs w)))
                   (pending w) (nextFrameId w) (events w)))
      as [_ [_ [H3 [H4 _]]]].
    split; [exact H3 | exact H4]. }
  destruct HA as [HA1 HA2]. clearbody wA.
  rewrite onVis_visible, HA2, Hav, Hpv. cbn [andb negb].
  match goal with |- context [Done tt ?x = Done tt _] => set (wB := x) end.
  assert (HB1 : startTimeRef (refs wB) = tv) by reflexivity.
  assert (HB2 : pausedAtRef (refs wB) = th) by exact HA1.
  clearbody wB. exists wB.
  unfold bind at 1.
  erewrite loop_cross; [| exact Hv | rewrite HB1; exact Hc | exact Hn].
  set (wC := scheduled rv (transitioned rv next perfNow wB)).
  assert (HC1 : startTimeRef (refs wC) = perfNow) by reflexivity.
  assert (HC2 : pausedAtRef (refs wC) = th) by exact HB2.
  assert (HC3 : rafIdRef (refs wC) = Some (nextFrameId wB)) by reflexivity.
  assert (HC4 : events wC
                = events wB
                  ++ ((if isCycleBoundary next then [EvIncrementCycle]
                       else [])
                      ++ [EvSetPhase next]
                      ++ cueEvents (settingsRef (refs wB)) next
                           (timing (timings (r_currentPattern rv)) next))
                  ++ [EvRequestFrame (nextFrameId wB)])
    by (unfold wC, scheduled, transitioned; cbn [events nextFrameId];
        rewrite <- !app_assoc; reflexivity).
  clearbody wC.
  unfold bind at 1. unfold mainEffectCleanup. rewrite stopRaf_stopped.
  destruct (stopped_refs wC) as [_ [D2 [D3 _]]].
  pose proof (stopped_events wC) as D4. rewrite HC3 in D4.
  set (wD := stopped wC) in *. clearbody wD.
  rewrite mainEffect_resumed;
    [| exact Ha2 | exact Hp2
     | rewrite D2, D3, HC1, HC2, Hth, Hpn; reflexivity].
  eexists. split; [reflexivity|]. split; [exact HB1|].
  split; [exact HB2|]. split; [reflexivity|].
  split; [cbn [scheduled refs startTimeRef];
          rewrite D2, D3, HC1, HC2; reflexivity|].
  split; [reflexivity|].
  erewrite eventsSince_app
    by (cbn [scheduled events]; rewrite D4, HC4, <- !app_assoc;
        reflexivity).
  rewrite !countEv_app.
  destruct (isCycleBoundary next); reflexivity.
Qed.

(** X15: when a tick ends a phase while [pausedAtRef] is not positive (no
    pause or hiding is on record) and the main effect is then cleaned up
    and run again for the new phase, the effect takes its "brand new
    phase start" branch: the clock is reset a second time and the sound
    cue of the new phase is sent a second time. *)
Theorem phase_change_cues_twice (r : Render) (now perfNow t : Q) (w : World) :
  crosses r now w = true ->
  ~ 0 < pausedAtRef (refs w) ->
  exists next w1 w2,
    nextPhaseSkipZero (r_phase r) (r_currentPattern r) = inr next
    /\ loop r now perfNow w = Done tt w1
    /\ phase (store w1) = next
    /\ (mainEffectCleanup ;;
        mainEffect (mkRender true false next (r_currentPattern r)) t)%engine w1
       = Done tt w2
    /\ startTimeRef (refs w1) = perfNow
    /\ startTimeRef (refs w2) = t
    /\ filter isPlayCue (eventsSince w w2)
       = [EvPlayCue (phaseToCueType next)
            (soundEnabled (settingsRef (refs w)))
            (soundPack (settingsRef (refs w)))
            (timing (timings (r_currentPattern r)) next)
            (language (settingsRef (refs w)));
          EvPlayCue (phaseToCueType next)
            (soundEnabled (settingsRef (refs w)))
            (soundPack (settingsRef (refs w)))
            (timing (timings (r_currentPattern r)) next)
            (language (settingsRef (refs w)))].
Proof.
  unfold crosses. intros H Hpa. apply andb_true_iff in H as [Hv Hc].
  apply positive_false in Hpa.
  destruct (nextPhaseSkipZero_valid (r_phase r) _ Hv) as [next Hn].
  exists next. eexists. eexists. split; [exact Hn|].
  split; [apply (loop_cross r now perfNow w next Hv Hc Hn)|].
  split; [reflexivity|].
  unfold bind at 1. unfold mainEffectCleanup. rewrite stopRaf_stopped.
  rewrite mainEffect_fresh;
    [| reflexivity | reflexivity
     | unfold stopped, scheduled, transitioned;
       cbn [refs rafIdRef pausedAtRef startTimeRef]; rewrite Hpa;
       reflexivity].
  split; [reflexivity|]. split; [reflexivity|]. split; [reflexivity|].
  erewrite eventsSince_app
    by (unfold stopped, scheduled, transitioned;
        cbn [refs rafIdRef events nextFrameId settingsRef cueEvents];
        rewrite <- !app_assoc; reflexivity).
  destruct (isCycleBoundary next); reflexivity.
Qed.

End EngineCompositions.

(* ===================================================================== *)
(** ** Properties of the sound cues *)
(* ===================================================================== *)

Section AudioProperties.

Local Open Scope Q_scope.
Import Audio.

Variable TRANSLATIONS : Language -> PhaseTexts.
Variable toLowerCase : string -> string.
Variable speechSynthesis : bool.
Variable voices : list Voice.
Variable throws : Call -> bool.

Lemma attempt_In (c : Call) (l : list Call) :
  In c (attempt throws l) -> c = ConsoleWarn \/ In c l.
Proof.
  induction l as [|a l IH]; cbn [attempt]; [tauto|].
  destruct (throws a).
  - intros [<-|[]]. left. reflexivity.
  - intros [<-|H]; [right; left; reflexivity|].
    destruct (IH H); [left | right; right]; assumption.
Qed.

Lemma onNode_In (c c' : Call) (present : bool) :
  In c (onNode present c') -> c = c' /\ present = true.
Proof.
  destruct present; cbn; [intros [<-|[]]; split; reflexivity | tauto].
Qed.

Lemma speak_In (c : Call) (text : string) (lang : Language) :
  In c (speak speechSynthesis voices text lang) ->
  nodeOf c = None /\ isSpeech c = true.
Proof.
  unfold speak. destruct speechSynthesis; cbn [negb]; [|intros []].
  intros [<-|[<-|[]]]; split; reflexivity.
Qed.

(** The calls of the [try] block only go to nodes that exist, and there
    are none for the finish cue. *)
Lemma cueCalls_In (g : Graph) (cue : CueType) (pack : SoundPack)
    (duration time : Q) (lang : Language) (c : Call) :
  In c (cueCalls TRANSLATIONS toLowerCase speechSynthesis voices
        g cue pack duration time lang) ->
  cue <> cue_finish
  /\ c <> SetupInstruments
  /\ (forall node, nodeOf c = Some node -> node g = true)
  /\ (isVoicePack pack = true -> nodeOf c = None /\ isSpeech c = true).
Proof.
  unfold cueCalls.
  destruct pack; destruct cue; destruct lang; cbn [isVoicePack String.eqb];
    repeat rewrite in_app_iff;
    try (destruct (String.eqb _ _));
    intros H;
    repeat match goal with
           | H : _ \/ _ |- _ => destruct H as [H|H]
           | H : In _ (onNode _ _) |- _ =>
               apply onNode_In in H; destruct H as [-> H]
           | H : In _ (speak _ _ _ _) |- _ =>
               apply speak_In in H; destruct H as [H H']
           | H : In _ [] |- _ => destruct H
           | H : False |- _ => destruct H
           end;
    (split; [discriminate|]);
    (split; [intros E; first [discriminate E | rewrite E in *; discriminate]
            |]);
    (split; [cbn [nodeOf]; intros node Hn;
             first [ injection Hn as <-; assumption
                   | congruence ]
            | intros Hvp; first [discriminate | split; assumption]]).
Qed.

Lemma playCue_In (g : Graph) (cue : CueType) (enabled : bool)
    (pack : SoundPack) (duration time : Q) (lang : Language) (c : Call) :
  In c (snd (playCue TRANSLATIONS toLowerCase speechSynthesis voices throws
              g cue enabled pack duration time
              lang)) ->
  c = ContextResume \/ c = SetupInstruments \/ c = ConsoleWarn
  \/ (enabled = true /\ masterGain g = true
      /\ In c (cueCalls TRANSLATIONS toLowerCase speechSynthesis voices
        g cue pack duration time lang)).
Proof.
  unfold playCue. destruct enabled; cbn [negb snd]; [|intros []].
  destruct (masterGain g); cbn [negb snd]; rewrite in_app_iff;
    (intros [H|H];
     [destruct (contextRunning g);
      [destruct H | destruct H as [<-|[]]; tauto]|]).
  - apply attempt_In in H. destruct H as [->|H]; [tauto|].
    right. right. right. repeat split; assumption.
  - destruct H as [<-|[]]. tauto.
Qed.

(** X16: [playCue] plays a sound only when sound is enabled and the
    master gain exists, never for the finish cue, and never on a node of
    the graph that does not exist. *)
Theorem sound_needs_enabled_graph (g : Graph) (cue : CueType)
    (enabled : bool) (pack : SoundPack) (duration time : Q)
    (lang : Language) (c : Call) :
  In c (snd (playCue TRANSLATIONS toLowerCase speechSynthesis voices throws
              g cue enabled pack duration time
              lang)) ->
  isSound c = true ->
  enabled = true
  /\ masterGain g = true
  /\ cue <> cue_finish
  /\ forall node, nodeOf c = Some node -> node g = true.
Proof.
  intros Hin Hs.
  destruct (playCue_In _ _ _ _ _ _ _ _ Hin)
    as [->|[->|[->|[He [Hm Hc]]]]]; try discriminate.
  destruct (cueCalls_In _ _ _ _ _ _ _ Hc) as [Hf [_ [Hn _]]].
  repeat split; assumption.
Qed.

(** X17: while the master gain does not exist an enabled [playCue] drops
    the cue: it starts the set-up of the instruments and plays nothing;
    the set-up having put the master gain in place, a later [playCue]
    does not start it again. *)
Theorem first_cue_starts_setup (g : Graph) (cue cue' : CueType)
    (pack pack' : SoundPack) (duration duration' time time' : Q)
    (lang lang' : Language) (enabled' : bool) :
  masterGain g = false ->
  let r1 := playCue TRANSLATIONS toLowerCase speechSynthesis voices throws
      g cue true pack duration time lang in
  let r2 := playCue TRANSLATIONS toLowerCase speechSynthesis voices throws
      (fst r1) cue' enabled' pack' duration' time' lang' in
  snd r1 = (if contextRunning g then [] else [ContextResume])
           ++ [SetupInstruments]
  /\ masterGain (fst r1) = true
  /\ ~ In SetupInstruments (snd r2)
  /\ fst r2 = fst r1.
Proof.
  intros Hm. cbv zeta.
  assert (H1 : playCue TRANSLATIONS toLowerCase speechSynthesis voices throws
      g cue true pack duration time lang
               = (setupBegun g,
                  (if contextRunning g then [] else [ContextResume])
                  ++ [SetupInstruments])).
  { unfold playCue. rewrite Hm. reflexivity. }
  rewrite H1. cbn [fst snd].
  split; [reflexivity|]. split; [reflexivity|].
  unfold playCue. cbn [setupBegun masterGain contextRunning negb].
  destruct enabled'; cbn [negb fst snd]; (split; [|reflexivity]);
    [|intros []].
  rewrite in_app_iff. intros [H|H].
  - destruct (contextRunning g); [destruct H|].
    destruct H as [H|[]]. discriminate.
  - apply attempt_In in H. destruct H as [H|H]; [discriminate|].
    apply cueCalls_In in H. destruct H as [_ [Hs _]].
    apply Hs. reflexivity.
Qed.



(** X18: the two hold phases make no sound under the breath pack and
    under the voice-12 pack: whatever the graph and the settings, the only
    calls [playCue] makes for them are the context resume and the
    set-up. *)
Theorem hold_is_silent (g : Graph) (p : BreathPhase) (enabled : bool)
    (pack : SoundPack) (duration time : Q) (lang : Language) (c : Call) :
  pack = breath \/ pack = voice_12 ->
  p = holdIn \/ p = holdOut ->
  In c (snd (playCue TRANSLATIONS toLowerCase speechSynthesis voices throws
              g (phaseToCueType p) enabled pack duration time
              lang)) ->
  c = ContextResume \/ c = SetupInstruments.
Proof.
  intros Hpack Hp Hin.
  assert (Hcue : phaseToCueType p = cue_hold)
    by (destruct Hp as [->| ->]; reflexivity).
  rewrite Hcue in Hin. unfold playCue in Hin.
  destruct enabled; cbn [negb snd] in Hin; [|destruct Hin].
  assert (Hnone : cueCalls TRANSLATIONS toLowerCase speechSynthesis voices
      g cue_hold pack duration time lang = []).
  { unfold cueCalls.
    destruct Hpack as [->| ->]; destruct lang; reflexivity. }
  rewrite Hnone in Hin. cbn [attempt] in Hin.
  destruct (masterGain g); cbn [negb snd] in Hin;
    rewrite in_app_iff in Hin; destruct Hin as [H|H];
    try (destruct (contextRunning g); [destruct H|];
         destruct H as [<-|[]]; left; reflexivity).
  - destruct H.
  - destruct H as [<-|[]]. right. reflexivity.
Qed.

(** X19: the voice packs never touch a node of the graph, the only sound
    they make is a spoken utterance, and neither the duration of the
    phase nor the audio clock changes what they do. *)
Theorem voice_packs_only_speak (g : Graph) (cue : CueType) (enabled : bool)
    (pack : SoundPack) (duration time duration' time' : Q)
    (lang : Language) :
  isVoicePack pack = true ->
  (forall c,
      In c (snd (playCue TRANSLATIONS toLowerCase speechSynthesis voices throws
              g cue enabled pack duration time
              lang)) ->
      nodeOf c = None
      /\ (isSound c = true -> exists u, c = SpeechSpeak u))
  /\ playCue TRANSLATIONS toLowerCase speechSynthesis voices throws
      g cue enabled pack duration time lang
     = playCue TRANSLATIONS toLowerCase speechSynthesis voices throws
      g cue enabled pack duration' time' lang.
Proof.
  intros Hv. split.
  - intros c Hin.
    destruct (playCue_In _ _ _ _ _ _ _ _ Hin)
      as [->|[->|[->|[_ [_ Hc]]]]];
      try (split; [reflexivity | discriminate]).
    destruct (cueCalls_In _ _ _ _ _ _ _ Hc) as [_ [_ [_ Hs]]].
    destruct (Hs Hv) as [Hn Hsp]. split; [exact Hn|].
    destruct c; try discriminate. intros _. eexists. reflexivity.
  - unfold playCue, cueCalls.
    destruct pack; try discriminate; reflexivity.
Qed.

End AudioProperties.

(* ===================================================================== *)
(** ** Properties of what the app draws *)
(* ===================================================================== *)

Section AppProperties.

Local Open Scope Q_scope.

(** X20: with a progress fraction between 0 and 1 the dash offset of the
    ring is between 0 and the circumference, and the scale of the text
    between 1 and 1.1, in every phase. *)
Theorem ring_and_text_in_range (CIRCUMFERENCE p : Q) (phase : BreathPhase) :
  0 <= CIRCUMFERENCE ->
  0 <= p <= 1 ->
  0 <= ringOffset CIRCUMFERENCE p <= CIRCUMFERENCE
  /\ 1 <= textScale phase p <= 11 # 10.
Proof.
  intros HC [Hp0 Hp1]. unfold ringOffset. split.
  - split; nra.
  - destruct phase; cbn [textScale]; split; lra.
Qed.

(** X21: the scale of the text does not jump when a phase is followed by
    the next one of the cycle, nor when one hold phase is skipped; it
    does jump, from 1.1 back to 1, when inhale follows inhale. *)
Theorem text_scale_continuous :
  (forall phase, textScale phase 1 == textScale (cyclicNext phase) 0)
  /\ textScale inhale 1 == textScale exhale 0
  /\ textScale exhale 1 == textScale inhale 0
  /\ ~ textScale inhale 1 == textScale inhale 0.
Proof.
  split; [intros []; reflexivity|].
  split; [reflexivity|]. split; [reflexivity|].
  intros H. discriminate H.
Qed.

End AppProperties.

(* ===================================================================== *)
(** ** Scenarios of the further properties *)
(* ===================================================================== *)

Section FurtherScenarios.

Local Open Scope Q_scope.
Import Sample.

Lemma streak_once_a_day_witness :
  let s := Store.startSession bt_box t1 initialState in
  let s1 := Store.finishSession (envAt (t1 + 35000) day1 day0) s in
  let s2 := Store.finishSession (envAt (t1 + 3640000) day1 day0)
              (Store.startSession bt_calm (t1 + 3600000) s1) in
  lastBreathDate (userSettings s1) = day1
  /\ streak (userSettings s2) = streak (userSettings s1)
  /\ lastBreathDate (userSettings s2) = lastBreathDate (userSettings s1).
Proof.
  apply (streak_once_a_day (envAt (t1 + 35000) day1 day0)
           (envAt (t1 + 3640000) day1 day0)
           (Store.startSession bt_box t1 initialState) bt_calm
           (t1 + 3600000)); vm_compute; reflexivity.
Defined.

Lemma shown_duration_witness :
  (60 * shownMinutes 125 + shownSeconds 125 = 125)%Z
  /\ (0 <= shownSeconds 125 < 60)%Z
  /\ String.length (summarySeconds 125) = 2%nat.
Proof. apply (shown_duration 125). vm_compute. discriminate. Defined.

(** A duration below zero, as a clock set back during the session gives:
    the two numbers shown are no longer its minutes and seconds. *)
Example shown_duration_negative :
  shownMinutes (-4) = (-1)%Z
  /\ shownSeconds (-4) = (-4)%Z
  /\ summarySeconds (-4) = "-4"%string.
Proof. vm_compute. repeat split; reflexivity. Qed.

Lemma progress_stays_in_range_witness :
  exists w',
    runSteps [StepVis (render exhale (BREATHING_PATTERNS bt_box)) true 6000;
              StepVis (render exhale (BREATHING_PATTERNS bt_box)) false 9000;
              StepFrame 8 9500 9500]
      (running exhale 1) = Done tt w'
    /\ 0 <= progressRef (refs w') <= 1.
Proof.
  apply (progress_stays_in_range _ (running exhale 1)).
  vm_compute. split; discriminate.
Defined.

Lemma halting_cancels_the_frame_witness :
  exists w1,
    (mainEffectCleanup ;;
     mainEffect (mkRender true true exhale (BREATHING_PATTERNS bt_box)) 6000)
      %engine (running exhale 1) = Done tt w1
    /\ rafIdRef (refs w1) = None
    /\ fireFrame 7 6016 6016 w1 = Done tt w1.
Proof.
  apply (proj1 (halting_cancels_the_frame 7 (running exhale 1)
                  (mkRender true true exhale (BREATHING_PATTERNS bt_box))
                  (mkRender false false inhale (BREATHING_PATTERNS bt_box))
                  (render exhale (BREATHING_PATTERNS bt_box))
                  6000 6016 6016
                  eq_refl eq_refl eq_refl eq_refl)).
Defined.

Lemma start_after_stop_is_fresh_witness :
  exists w1 w2,
    mainEffect (mkRender false false inhale (BREATHING_PATTERNS bt_box))
      9000 (running exhale 1) = Done tt w1
    /\ mainEffect (render inhale (BREATHING_PATTERNS bt_calm)) 20000 w1
       = Done tt w2
    /\ startTimeRef (refs w2) = 20000
    /\ progressRef (refs w2) = 0.
Proof.
  destruct (start_after_stop_is_fresh
              (mkRender false false inhale (BREATHING_PATTERNS bt_box))
              (render inhale (BREATHING_PATTERNS bt_calm))
              9000 20000 (running exhale 1) eq_refl eq_refl eq_refl)
    as [w1 [w2 [H1 [H2 [_ [_ [_ [_ [Hs [Hp _]]]]]]]]]].
  exists w1, w2. repeat split; assumption.
Defined.

Lemma next_cue_uses_current_settings_witness :
  exists next w1 w2,
    step StepSettings (running holdOut 2) = Done tt w1
    /\ loop (render holdOut (BREATHING_PATTERNS bt_box)) 9000 9001 w1
       = Done tt w2
    /\ nextPhaseSkipZero holdOut (BREATHING_PATTERNS bt_box) = inr next
    /\ filter (fun e => isHaptic e || isPlayCue e) (eventsSince w1 w2)
       = cueEvents (userSettings (store (running holdOut 2))) next
           (timing (timings (BREATHING_PATTERNS bt_box)) next).
Proof.
  apply (next_cue_uses_current_settings
           (render holdOut (BREATHING_PATTERNS bt_box)) 9000 9001
           (running holdOut 2)).
  vm_compute. reflexivity.
Defined.

Lemma soft_resume_delays_next_phase_witness :
  exists w2 w3,
    (onVis (render exhale (BREATHING_PATTERNS bt_box)) true 6000 ;;
     onVis (render exhale (BREATHING_PATTERNS bt_box)) false 3606000)%engine
      (running exhale 1) = Done tt w2
    /\ (loop (render exhale (BREATHING_PATTERNS bt_box)) 3610000 3610000 ;;
        mainEffectCleanup ;;
        mainEffect (render holdOut (BREATHING_PATTERNS bt_box)) 3610010)
         %engine w2 = Done tt w3
    /\ startTimeRef (refs w3) = 3610000 + (3610010 - 6000).
Proof.
  destruct (soft_resume_delays_next_phase
              (render exhale (BREATHING_PATTERNS bt_box))
              (render exhale (BREATHING_PATTERNS bt_box))
              (render holdOut (BREATHING_PATTERNS bt_box))
              6000 3606000 3610000 3610000 3610010 (running exhale 1))
    as [w2 [w3 [H1 [_ [_ [H2 [H3 _]]]]]]];
    try reflexivity.
  exists w2, w3. repeat split; assumption.
Defined.

Lemma phase_change_cues_twice_witness :
  exists next w1 w2,
    nextPhaseSkipZero inhale (BREATHING_PATTERNS bt_box) = inr next
    /\ loop (render inhale (BREATHING_PATTERNS bt_box)) 9000 9001
            (running inhale 0) = Done tt w1
    /\ (mainEffectCleanup ;;
        mainEffect (mkRender true false next (BREATHING_PATTERNS bt_box))
          9010)%engine w1 = Done tt w2
    /\ countEv isPlayCue (eventsSince (running inhale 0) w2) = 2%nat.
Proof.
  destruct (phase_change_cues_twice
              (render inhale (BREATHING_PATTERNS bt_box)) 9000 9001 9010
              (running inhale 0))
    as [next [w1 [w2 [Hn [H1 [_ [H2 [_ [_ Hc]]]]]]]]].
  - vm_compute. reflexivity.
  - vm_compute. discriminate.
  - exists next, w1, w2. repeat split; try assumption.
    unfold countEv. rewrite Hc. reflexivity.
Defined.

Import Audio AudioSample.

Lemma sound_needs_enabled_graph_witness :
  padSynth ready = true /\ masterGain ready = true.
Proof.
  destruct (sound_needs_enabled_graph texts asIs true browserVoices noThrow
              ready cue_inhale true musical 4 0 en
              (PadTrigger CHORDS_warm (4 + 1) 0))
    as [_ [Hm [_ Hn]]].
  - vm_compute. left. reflexivity.
  - reflexivity.
  - split; [apply (Hn padSynth); reflexivity | exact Hm].
Defined.

Lemma first_cue_starts_setup_witness :
  snd (playCue texts asIs true browserVoices noThrow emptyGraph cue_inhale
         true bells 4 0 en)
  = [ContextResume; SetupInstruments]
  /\ ~ In SetupInstruments
        (snd (playCue texts asIs true browserVoices noThrow
                (fst (playCue texts asIs true browserVoices noThrow
                        emptyGraph cue_inhale true bells 4 0 en))
                cue_exhale true bells 8 4 en)).
Proof.
  destruct (first_cue_starts_setup texts asIs true browserVoices noThrow
              emptyGraph cue_inhale cue_exhale bells bells 4 8 0 4 en en
              true eq_refl)
    as [H1 [_ [H3 _]]].
  split; [exact H1 | exact H3].
Defined.

Lemma hold_is_silent_witness :
  ContextResume = ContextResume \/ ContextResume = SetupInstruments.
Proof.
  apply (hold_is_silent texts asIs true browserVoices noThrow
           suspended holdIn true breath 7 0 en ContextResume).
  - left. reflexivity.
  - left. reflexivity.
  - vm_compute. left. reflexivity.
Defined.

Lemma voice_packs_only_speak_witness :
  playCue texts asIs true browserVoices noThrow ready cue_exhale true
    voice_en 8 0 en
  = playCue texts asIs true browserVoices noThrow ready cue_exhale true
      voice_en 6 12 en.
Proof.
  apply (proj2 (voice_packs_only_speak texts asIs true browserVoices noThrow
                  ready cue_exhale true voice_en 8 0 6 12 en eq_refl)).
Defined.

(** What the voice pack says for the exhale of an English session: the
    speech is cancelled, then the text is spoken by the first preferred
    voice. *)
Example voice_cue_run :
  snd (playCue texts asIs true browserVoices noThrow ready cue_exhale true
         voice_en 8 0 en)
  = [SpeechCancel;
     SpeechSpeak (mkUtterance "Exhale" "en-US" (8 # 10) 1 (7 # 10)
                    (Some (mkVoice "en-US" "Google US English")))].
Proof. vm_compute. reflexivity. Qed.

Lemma ring_and_text_in_range_witness :
  0 <= ringOffset 560 (1 # 2) <= 560
  /\ 1 <= textScale exhale (1 # 2) <= 11 # 10.
Proof.
  apply (ring_and_text_in_range 560 (1 # 2) exhale).
  - discriminate.
  - split; discriminate.
Defined.

End FurtherScenarios.
